(** * Frame: transaction preparation (src/main/transaction/index.ts)

    A shallow embedding of the transaction module of the Frame wallet:
    [signerCompatibility], [londonToLegacy], [calculateMaxFeePerGas],
    [populate] and [classifyTransaction], with the JavaScript primitives they
    rest on ([parseInt], truthiness, object spread, the [in] operator) and the
    two library calls they make (bignumber.js and @ethereumjs/util).

    Conventions of the embedding:
    - a JavaScript string is a [string]; each character stands for one UTF-16
      code unit below 256, so [String.length] is the JavaScript [length];
    - an object with an open set of keys (a [TransactionData]) is a finite map
      from property names to values; a property that was never written is
      absent from the map and reads as [undefined];
    - a typed field [x?: string] of a closed interface is an [option string];
    - a JavaScript integer that is only compared (a version number) is a [Z]. *)

From Stdlib Require Import ZArith NArith Ascii String Bool Lia.
From stdpp Require Import gmap strings fin_maps.

Local Open Scope string_scope.

(* ===================================================================== *)
(** * JavaScript values *)
(* ===================================================================== *)

(** The values a field of a [TransactionData] holds under its declared type:
    hex strings, the flags of the interface, and [undefined] for an optional
    field written explicitly with no value. *)
Inductive JSValue : Type :=
  | VUndefined
  | VBool (b : bool)
  | VString (s : string).

#[global] Instance JSValue_eq_dec : EqDecision JSValue.
Proof. solve_decision. Defined.

(** ToBoolean: [!v] is [negb (truthy v)]. *)
Definition truthy (v : JSValue) : bool :=
  match v with
  | VUndefined => false
  | VBool b => b
  | VString s => negb (String.eqb s "")
  end.

(** ToString. *)
Definition ToString (v : JSValue) : string :=
  match v with
  | VUndefined => "undefined"
  | VBool true => "true"
  | VBool false => "false"
  | VString s => s
  end.

(** Strict equality [v === 'literal']. *)
Definition strictEqString (v : JSValue) (lit : string) : bool :=
  match v with
  | VString s => String.eqb s lit
  | _ => false
  end.

(** The value read from a field declared [x?: string]. *)
Definition ofOption (o : option string) : JSValue :=
  match o with
  | Some s => VString s
  | None => VUndefined
  end.

(* ===================================================================== *)
(** * Digits, [Number.prototype.toString(radix)] and [parseInt] *)
(* ===================================================================== *)

Local Open Scope N_scope.

(** Value of a code unit as a digit: '0'-'9', then 'a'-'z' or 'A'-'Z' for
    ten to thirty-five. *)
Definition digitValue (c : ascii) : option N :=
  let n := N_of_ascii c in
  if (48 <=? n) && (n <=? 57) then Some (n - 48)
  else if (97 <=? n) && (n <=? 122) then Some (n - 87)
  else if (65 <=? n) && (n <=? 90) then Some (n - 55)
  else None.

(** The digit of a value below 36, lower case. *)
Definition digitChar (d : N) : ascii :=
  if d <? 10 then ascii_of_N (48 + d) else ascii_of_N (87 + d).

Definition isRadixDigit (radix : N) (c : ascii) : bool :=
  match digitValue c with
  | Some d => d <? radix
  | None => false
  end.

(** The digits of [n] in [radix], most significant first, without padding.
    [fuel] bounds the number of digits; [toStringRadix] below supplies
    enough. *)
Fixpoint digitsOf (fuel : nat) (radix n : N) : string :=
  match fuel with
  | O => ""
  | S fuel' =>
      if n <? radix then String (digitChar n) ""
      else digitsOf fuel' radix (n / radix) +:+ String (digitChar (n mod radix)) ""
  end.

(** [n.toString(radix)] for a non-negative integer. *)
Definition toStringRadix (n radix : N) : string :=
  digitsOf (S (N.to_nat (N.log2 n))) radix n.

(** Position of a code unit in the alphabet
    [0123456789abcdefghijklmnopqrstuvwxyz] (lower case only). *)
Definition alphabetIndex (c : ascii) : option N :=
  let n := N_of_ascii c in
  if (48 <=? n) && (n <=? 57) then Some (n - 48)
  else if (97 <=? n) && (n <=? 122) then Some (n - 87)
  else None.

(** Reads a whole string of digits of the alphabet; [None] at the first code
    unit that is not one of the first [radix] of them. *)
Fixpoint readDigits (radix : N) (s : string) (acc : N) : option N :=
  match s with
  | "" => Some acc
  | String c s' =>
      match alphabetIndex c with
      | Some d => if d <? radix then readDigits radix s' (acc * radix + d) else None
      | None => None
      end
  end.

(** Reads the longest prefix of digits, as [parseInt] does; returns the value
    and the number of digits read. *)
Fixpoint readDigitPrefix (radix : N) (s : string) (acc : N) (count : nat) : N * nat :=
  match s with
  | "" => (acc, count)
  | String c s' =>
      if isRadixDigit radix c
      then readDigitPrefix radix s' (acc * radix + default 0 (digitValue c)) (S count)
      else (acc, count)
  end.

(** White space and line terminators among the code units below 256:
    TAB, LF, VT, FF, CR, SP and NBSP. *)
Definition isWhiteSpace (c : ascii) : bool :=
  let n := N_of_ascii c in
  ((9 <=? n) && (n <=? 13)) || (n =? 32) || (n =? 160).

Fixpoint trimStart (s : string) : string :=
  match s with
  | String c s' => if isWhiteSpace c then trimStart s' else s
  | "" => ""
  end.

(** [String.prototype.toLowerCase] on code units below 256: 'A'-'Z' and the
    Latin-1 capitals (192-222 except the multiplication sign 215). *)
Definition lowerChar (c : ascii) : ascii :=
  let n := N_of_ascii c in
  if ((65 <=? n) && (n <=? 90)) || ((192 <=? n) && (n <=? 222) && negb (n =? 215))
  then ascii_of_N (n + 32)
  else c.

Fixpoint toLowerCase (s : string) : string :=
  match s with
  | "" => ""
  | String c s' => String (lowerChar c) (toLowerCase s')
  end.

(** An optional sign: the sign read and the rest of the string. *)
Definition readSign (s : string) : bool * string :=
  match s with
  | String "-" s' => (true, s')
  | String "+" s' => (false, s')
  | _ => (false, s)
  end.

Definition stripHexPrefix0x (s : string) : option string :=
  match s with
  | String "0" (String "x" s') => Some s'
  | String "0" (String "X" s') => Some s'
  | _ => None
  end.

(** [parseInt(v, radix)] with an explicit radix; [None] is NaN.  The value is
    the mathematical integer read: the callers below only test it with
    [isNaN]. *)
Definition parseInt (v : JSValue) (radix : N) : option Z :=
  let S0 := trimStart (ToString v) in
  let '(negative, S1) := readSign S0 in
  if (radix <? 2) || (36 <? radix) then None
  else
    let S2 := if radix =? 16 then default S1 (stripHexPrefix0x S1) else S1 in
    let '(n, count) := readDigitPrefix radix S2 0 O in
    match count with
    | O => None
    | S _ => Some (if negative then Z.opp (Z.of_N n) else Z.of_N n)
    end.

Definition isNaN (r : option Z) : bool :=
  match r with
  | None => true
  | Some _ => false
  end.

Local Close Scope N_scope.

(* ===================================================================== *)
(** * bignumber.js and @ethereumjs/util, as far as the module calls them *)
(* ===================================================================== *)

Module BigNumberJs.

(** A bignumber.js value.  The module builds one from a price of the gas
    snapshot or of the request, adds two of them and prints the result in
    base 16.  The prices are non-negative integers, written in hexadecimal
    (the prefix [0x] or [0X] and digits whose letters are all in lower case
    or all in upper case) or in decimal, and this is the part of the library
    the model covers: such a literal is the integer it denotes and any other
    argument is [NaN], as is in the library a hexadecimal literal that mixes
    the cases.  (bignumber.js also reads signs, fractions, exponents, the
    [0b] and [0o] prefixes and surrounding white space; a price written so
    is outside the model, and every statement below that depends on a number
    assumes a literal of the two kinds above.) *)
Inductive t : Type :=
  | Int (n : N)
  | NaN.

(** A code unit that [String.prototype.toUpperCase] changes: 'a'-'z', the
    micro sign and the small letters of Latin-1 (223-255 except the division
    sign 247). *)
Definition changedByToUpperCase (c : ascii) : bool :=
  let n := N_of_ascii c in
  ((97 <=? n)%N && (n <=? 122)%N) || (n =? 181)%N ||
  ((223 <=? n)%N && (n <=? 255)%N && negb (n =? 247)%N).

(** [str == str.toUpperCase()]. *)
Fixpoint isUpperCase (str : string) : bool :=
  match str with
  | "" => true
  | String c str' => negb (changedByToUpperCase c) && isUpperCase str'
  end.

(** The digits of a hexadecimal literal, as the constructor checks them
    against the alphabet [0123456789abcdef]: lower-case digits are read as
    they are; a string with a code unit outside the alphabet is put in lower
    case and read once more if it equals its own upper case (this allows
    'FF' as well as 'ff'), and is not a number otherwise. *)
Definition readHexDigits (digits : string) : option N :=
  match readDigits 16 digits 0 with
  | Some n => Some n
  | None => if isUpperCase digits then readDigits 16 (toLowerCase digits) 0 else None
  end.

(** An integer literal: [0x] or [0X] followed by hexadecimal digits, or
    decimal digits alone; at least one digit in both cases. *)
Definition readLiteral (s : string) : option N :=
  match stripHexPrefix0x s with
  | Some digits =>
      match digits with
      | "" => None
      | _ => readHexDigits digits
      end
  | None =>
      match s with
      | "" => None
      | _ => readDigits 10 s 0
      end
  end.

(** [BigNumber(v)]: the argument is converted with [String(v)]. *)
Definition BigNumber (v : JSValue) : t :=
  match readLiteral (ToString v) with
  | Some n => Int n
  | None => NaN
  end.

(** [a.plus(b)], [b] being converted by the constructor. *)
Definition plus (a : t) (b : JSValue) : t :=
  match a, BigNumber b with
  | Int x, Int y => Int (x + y)
  | _, _ => NaN
  end.

(** [a.toString(radix)]. *)
Definition toString (a : t) (radix : N) : string :=
  match a with
  | Int n => toStringRadix n radix
  | NaN => "NaN"
  end.

End BigNumberJs.

(** [isHexPrefixed(str)]: [str[0] === '0' && str[1] === 'x']. *)
Definition isHexPrefixed (str : string) : bool :=
  match str with
  | String "0" (String "x" _) => true
  | _ => false
  end.

(** [addHexPrefix(str)] on a string. *)
Definition addHexPrefix (str : string) : string :=
  if isHexPrefixed str then str else "0x" +:+ str.

(** [intToHex(i)] for a non-negative safe integer: ['0x' + i.toString(16)]. *)
Definition intToHex (i : N) : string :=
  "0x" +:+ toStringRadix i 16.

(* ===================================================================== *)
(** * Data model *)
(* ===================================================================== *)

(** A [TransactionData] object: its own enumerable properties.  Object spread
    [{ ...o }] copies exactly these, so on values it is the identity. *)
Abbreviation TransactionData := (gmap string JSValue).

(** Property read [o.k]: [undefined] when the property is absent. *)
Definition get (k : string) (o : TransactionData) : JSValue :=
  default VUndefined (o !! k).

Module GasFeesSource.

(** Modelled from the spec: the enum [GasFeesSource] of
    resources/domain/transaction, whose declaration is not among the sources.
    The spec gives its members, User, Dapp and Frame; a member is represented
    by the string of its name. *)
Definition User : JSValue := VString "User".
Definition Dapp : JSValue := VString "Dapp".
Definition Frame : JSValue := VString "Frame".

End GasFeesSource.

(** The chain ruleset ([Common] of @ethereumjs/common), at its interface. *)
Record Common : Type := {
  isActivatedEIP : N -> bool
}.

(** The gas snapshot ([Gas] of main/store/state).  Prices are strings; a level
    may be missing and [fees] is absent until an estimate exists. *)
Record GasLevels : Type := {
  slow : JSValue;
  standard : JSValue;
  fast : JSValue;
  asap : JSValue;
  custom : JSValue
}.

Record GasFees : Type := {
  nextBaseFee : JSValue;
  maxBaseFeePerGas : JSValue;
  maxPriorityFeePerGas : JSValue;
  maxFeePerGas : JSValue
}.

Record GasPrice : Type := {
  levels : GasLevels;
  fees : option GasFees
}.

Record Gas : Type := {
  price : GasPrice
}.

(** [AppVersion] and [SignerSummary] of main/signers/Signer. *)
Record AppVersion : Type := {
  major : Z;
  minor : Z;
  patch : Z
}.

Record SignerSummary : Type := {
  type : string;
  appVersion : AppVersion;
  model : option string
}.

(** The first transaction parameter of a request and the request itself
    ([TransactionRequest] of main/accounts/types, without [classification]). *)
Record TxParams : Type := {
  to : option string;
  data : option string
}.

Record Payload : Type := {
  params : list TxParams
}.

Record TransactionRequest : Type := {
  payload : Payload;
  recipientType : option string
}.

Inductive TxClassification : Type :=
  | CONTRACT_DEPLOY
  | CONTRACT_CALL
  | SEND_DATA
  | NATIVE_TRANSFER.

(* ===================================================================== *)
(** * londonToLegacy, calculateMaxFeePerGas, populate *)
(* ===================================================================== *)

(** Lines 67-75.  The rest pattern drops [type], [maxFeePerGas] and
    [maxPriorityFeePerGas]; the literal then writes [type] and [gasPrice]. *)
Definition londonToLegacy (txData : TransactionData) : TransactionData :=
  if strictEqString (get "type" txData) "0x2" then
    let maxFeePerGas := get "maxFeePerGas" txData in
    let tx := delete "maxPriorityFeePerGas" (delete "maxFeePerGas" (delete "type" txData)) in
    <["gasPrice" := maxFeePerGas]> (<["type" := VString "0x0"]> tx)
  else txData.

(** Lines 77-80. *)
Definition calculateMaxFeePerGas (maxBaseFee maxPriorityFee : JSValue) : string :=
  let maxFeePerGas :=
    BigNumberJs.toString (BigNumberJs.plus (BigNumberJs.BigNumber maxPriorityFee) maxBaseFee) 16 in
  addHexPrefix maxFeePerGas.

(** [!v || isNaN(parseInt(v, 16))]: no valid dapp-supplied value. *)
Definition useFrameValue (v : JSValue) : bool :=
  negb (truthy v) || isNaN (parseInt v 16).

(** Lines 86-98, the branch taken when EIP-1559 is not activated or the
    snapshot has no [fees]. *)
Definition populateLegacy (rawTx : TransactionData) (chainConfig : Common) (gas : Gas)
  : TransactionData :=
  let txData := rawTx in
  let txData := <["type" := VString (intToHex (if isActivatedEIP chainConfig 2930 then 1 else 0))]> txData in
  let useFrameGasPrice := useFrameValue (get "gasPrice" rawTx) in
  if useFrameGasPrice then
    let gasPrice := BigNumberJs.toString (BigNumberJs.BigNumber (fast (levels (price gas)))) 16 in
    let txData := <["gasPrice" := VString (addHexPrefix gasPrice)]> txData in
    let txData := <["gasFeesSource" := GasFeesSource.Frame]> txData in
    txData
  else txData.

(** Lines 100-133, the EIP-1559 branch; [gasFees] is [gas.price.fees]. *)
Definition populateLondon (rawTx : TransactionData) (gasFees : GasFees) : TransactionData :=
  let txData := rawTx in
  let txData := <["type" := VString (intToHex 2)]> txData in
  let useFrameMaxFeePerGas := useFrameValue (get "maxFeePerGas" rawTx) in
  let useFrameMaxPriorityFeePerGas := useFrameValue (get "maxPriorityFeePerGas" rawTx) in
  if negb useFrameMaxFeePerGas && negb useFrameMaxPriorityFeePerGas then txData
  else
    let txData :=
      if useFrameMaxFeePerGas && useFrameMaxPriorityFeePerGas
      then <["gasFeesSource" := GasFeesSource.Frame]> txData
      else txData in
    let maxPriorityFee :=
      if useFrameMaxPriorityFeePerGas && truthy (maxPriorityFeePerGas gasFees)
      then maxPriorityFeePerGas gasFees
      else get "maxPriorityFeePerGas" rawTx in
    let txData :=
      <["maxFeePerGas" :=
          if useFrameMaxFeePerGas && truthy (maxBaseFeePerGas gasFees)
          then VString (calculateMaxFeePerGas (maxBaseFeePerGas gasFees) maxPriorityFee)
          else get "maxFeePerGas" txData]> txData in
    let txData :=
      <["maxPriorityFeePerGas" :=
          if useFrameMaxPriorityFeePerGas
          then VString (addHexPrefix (BigNumberJs.toString (BigNumberJs.BigNumber maxPriorityFee) 16))
          else get "maxPriorityFeePerGas" txData]> txData in
    txData.

(** Lines 82-134.  [!gas.price.fees] holds exactly when [fees] is absent: an
    object is truthy. *)
Definition populate (rawTx : TransactionData) (chainConfig : Common) (gas : Gas)
  : TransactionData :=
  match fees (price gas) with
  | Some gasFees =>
      if negb (isActivatedEIP chainConfig 1559)
      then populateLegacy rawTx chainConfig gas
      else populateLondon rawTx gasFees
  | None => populateLegacy rawTx chainConfig gas
  end.

(* ===================================================================== *)
(** * signerCompatibility *)
(* ===================================================================== *)

(** The completion of an expression that can throw. *)
Inductive Completion (A : Type) : Type :=
  | Return (a : A)
  | Throw (error : string).

Arguments Return {A} a.
Arguments Throw {A} error.

(** A value of the [compatible] property.  Its declared type is boolean; the
    indexed call [londonHardforkSigners[signer.type](...)] returns something
    else when the key is found on the prototype and not in the table. *)
Inductive CompatibleValue : Type :=
  | CBool (b : bool)
  | CUndefined
  | CString (s : string)
  | CAppVersion (version : AppVersion)
  | CSignerTable.

Record SignerCompatibility : Type := {
  signer : string;
  tx : string;
  compatible : CompatibleValue
}.

Local Open Scope Z_scope.

(** Lines 14-34: the own properties of the table, by key. *)
Definition londonHardforkSigners (key : string)
  : option (AppVersion -> option string -> bool) :=
  if String.eqb key "seed" then Some (fun _ _ => true)
  else if String.eqb key "ring" then Some (fun _ _ => true)
  else if String.eqb key "ledger" then
    Some (fun version _ =>
      (major version >=? 2) || ((major version >=? 1) && (minor version >=? 9)))
  else if String.eqb key "trezor" then
    Some (fun version model =>
      if String.eqb (toLowerCase (default "" model)) "trezor one" then
        (major version >=? 2) ||
        ((major version >=? 1) &&
         ((minor version >? 10) || ((minor version =? 10) && (patch version >=? 4))))
      else
        (major version >=? 3) ||
        ((major version =? 2) && (minor version >=? 5)) ||
        ((major version =? 2) && (minor version =? 4) && (patch version >=? 2)))
  else if String.eqb key "lattice" then
    Some (fun version _ => (major version >=? 1) || (minor version >=? 11))
  else None.

Local Close Scope Z_scope.

(** The table is an object literal, so [key in londonHardforkSigners] also
    holds for the properties of [Object.prototype], and the indexed call then
    invokes the inherited member with [this] the table and the arguments
    [(signer.appVersion, signer.model)]:
    - [constructor] is [Object], which returns its object argument;
    - [hasOwnProperty], [propertyIsEnumerable] and the two [__lookup...__]
      convert the version to the key ["[object Object]"], which the table
      lacks; [isPrototypeOf] finds the table nowhere above the version;
    - [toString] and [toLocaleString] print the table, [valueOf] returns it;
    - [__defineGetter__] and [__defineSetter__] reject a second argument that
      is not callable, and [__proto__] is an object, not a function. *)
Definition ObjectPrototype (key : string) (version : AppVersion) (model : option string)
  : option (Completion CompatibleValue) :=
  if String.eqb key "constructor" then Some (Return (CAppVersion version))
  else if String.eqb key "hasOwnProperty" then Some (Return (CBool false))
  else if String.eqb key "isPrototypeOf" then Some (Return (CBool false))
  else if String.eqb key "propertyIsEnumerable" then Some (Return (CBool false))
  else if String.eqb key "toString" then Some (Return (CString "[object Object]"))
  else if String.eqb key "toLocaleString" then Some (Return (CString "[object Object]"))
  else if String.eqb key "valueOf" then Some (Return CSignerTable)
  else if String.eqb key "__lookupGetter__" then Some (Return CUndefined)
  else if String.eqb key "__lookupSetter__" then Some (Return CUndefined)
  else if String.eqb key "__defineGetter__" then Some (Throw "TypeError")
  else if String.eqb key "__defineSetter__" then Some (Throw "TypeError")
  else if String.eqb key "__proto__" then Some (Throw "TypeError")
  else None.

(** The names of the members of [Object.prototype]. *)
Definition objectPrototypeMembers : list string :=
  ["constructor"; "hasOwnProperty"; "isPrototypeOf"; "propertyIsEnumerable"; "toString";
   "toLocaleString"; "valueOf"; "__lookupGetter__"; "__lookupSetter__"; "__defineGetter__";
   "__defineSetter__"; "__proto__"].

(** Modelled from the spec: the signer kinds.  [SignerSummary] is declared in
    main/signers/Signer, which is not among the sources; the spec has its
    [type] "one of a fixed enumeration of signer kinds", the five kinds of the
    table among them.  The enumeration has no kind named like a member of
    [Object.prototype], and that is all the statements need of it. *)
Definition isSignerKind (type : string) : bool :=
  negb (bool_decide (type ∈ objectPrototypeMembers)).

(** [key in londonHardforkSigners && londonHardforkSigners[key](version, model)]:
    own properties first, then the prototype; [false] when [in] fails. *)
Definition lookupAndCall (key : string) (version : AppVersion) (model : option string)
  : Completion CompatibleValue :=
  match londonHardforkSigners key with
  | Some predicate => Return (CBool (predicate version model))
  | None =>
      match ObjectPrototype key version model with
      | Some completion => completion
      | None => Return (CBool false)
      end
  end.

Section WithDomainHelpers.

(** [typeSupportsBaseFee] of resources/domain/transaction and [isNonZeroHex]
    of resources/utils are imported by the module and are not among the
    sources: the two functions that call them take them as parameters. *)
Variable typeSupportsBaseFee : JSValue -> bool.
Variable isNonZeroHex : string -> bool.

(** Lines 52-65. *)
Definition signerCompatibility (txData : TransactionData) (signer : SignerSummary)
  : Completion SignerCompatibility :=
  if typeSupportsBaseFee (get "type" txData) then
    match lookupAndCall (type signer) (appVersion signer) (model signer) with
    | Return compatible =>
        Return {| signer := type signer; tx := "london"; compatible := compatible |}
    | Throw error => Throw error
    end
  else
    Return {| signer := type signer; tx := "legacy"; compatible := CBool true |}.

(* ===================================================================== *)
(** * classifyTransaction *)
(* ===================================================================== *)

(** Lines 165-175.  Destructuring [params[0]] throws when [params] is empty;
    [data] defaults to ['0x'] when it is undefined. *)
Definition classifyTransaction (request : TransactionRequest)
  : Completion TxClassification :=
  match params (payload request) with
  | [] => Throw "TypeError"
  | param0 :: _ =>
      let to := to param0 in
      let data := default "0x" (data param0) in
      let recipientType := ofOption (recipientType request) in
      if negb (truthy (ofOption to)) then Return CONTRACT_DEPLOY
      else if strictEqString recipientType "external" && (2 <? String.length data)%nat
      then Return SEND_DATA
      else if isNonZeroHex data && negb (strictEqString recipientType "external")
      then Return CONTRACT_CALL
      else Return NATIVE_TRANSFER
  end.

End WithDomainHelpers.

(** Modelled from the spec: [typeSupportsBaseFee], which is not among the
    sources.  The spec has [type] a "hex string encoding 0 = legacy,
    1 = access-list, 2 = fee-market" and a transaction supports a base fee
    when it is fee-market. *)
Definition typeSupportsBaseFee_spec (type : JSValue) : bool :=
  match parseInt type 16 with
  | Some 2%Z => true
  | _ => false
  end.

(** Modelled from the spec: [isNonZeroHex], which is not among the sources.
    The spec speaks of data with a "non-zero payload", and has ['0xabcd']
    such and the empty marker ['0x'] not. *)
Definition isNonZeroHex_spec (hex : string) : bool :=
  match parseInt (VString hex) 16 with
  | Some z => negb (z =? 0)%Z
  | None => false
  end.

(* ===================================================================== *)
(** * The same functions on references *)
(* ===================================================================== *)

(** [populate] assigns to properties of an object and [londonToLegacy] can
    return its own argument, so which object is written matters to a caller
    that keeps the request.  Here objects live in a store, a reference is a
    location, and the functions are written in a state monad over the store,
    statement by statement. *)
Module OnStore.

Abbreviation store := (gmap positive (gmap string JSValue)).

Definition M (A : Type) : Type := store -> A * store.

Definition ret {A : Type} (a : A) : M A := fun h => (a, h).

Definition bind {A B : Type} (m : M A) (k : A -> M B) : M B :=
  fun h => let '(a, h') := m h in k a h'.

Notation "x <- m ;; k" := (bind m (fun x => k))
  (at level 100, m at next level, right associativity).
Notation "m ;;; k" := (bind m (fun _ => k))
  (at level 100, right associativity).

(** The object at a location (the empty object for a dangling one, which the
    functions below never meet). *)
Definition objectAt (h : store) (o : positive) : gmap string JSValue :=
  default ∅ (h !! o).

(** [{ ...source }]: a new object holding the own properties of [source]. *)
Definition spread (source : positive) : M positive :=
  fun h => let o := fresh (dom h) in (o, <[o := objectAt h source]> h).

(** [o.k]. *)
Definition getProp (o : positive) (k : string) : M JSValue :=
  fun h => (get k (objectAt h o), h).

(** [o.k = v]. *)
Definition setProp (o : positive) (k : string) (v : JSValue) : M unit :=
  fun h => (tt, <[o := <[k := v]> (objectAt h o)]> h).

(** [const { k1, k2, k3, ...rest } = source; return { ...rest, ...literal }]:
    a new object built from the properties of [source] by [build]. *)
Definition newObject (source : positive)
    (build : gmap string JSValue -> gmap string JSValue) : M positive :=
  fun h => let o := fresh (dom h) in (o, <[o := build (objectAt h source)]> h).

(** Lines 67-75. *)
Definition londonToLegacy (txData : positive) : M positive :=
  type <- getProp txData "type" ;;
  if strictEqString type "0x2" then
    maxFeePerGas <- getProp txData "maxFeePerGas" ;;
    newObject txData (fun own =>
      let tx := delete "maxPriorityFeePerGas" (delete "maxFeePerGas" (delete "type" own)) in
      <["gasPrice" := maxFeePerGas]> (<["type" := VString "0x0"]> tx))
  else ret txData.

(** Lines 82-134. *)
Definition populate (rawTx : positive) (chainConfig : Common) (gas : Gas) : M positive :=
  txData <- spread rawTx ;;
  let legacy : M positive :=
    setProp txData "type" (VString (intToHex (if isActivatedEIP chainConfig 2930 then 1 else 0))) ;;;
    rawGasPrice <- getProp rawTx "gasPrice" ;;
    let useFrameGasPrice := useFrameValue rawGasPrice in
    (if useFrameGasPrice then
       let gasPrice :=
         BigNumberJs.toString (BigNumberJs.BigNumber (fast (levels (price gas)))) 16 in
       setProp txData "gasPrice" (VString (addHexPrefix gasPrice)) ;;;
       setProp txData "gasFeesSource" GasFeesSource.Frame
     else ret tt) ;;;
    ret txData in
  match fees (price gas) with
  | None => legacy
  | Some gasFees =>
      if negb (isActivatedEIP chainConfig 1559) then legacy
      else
        setProp txData "type" (VString (intToHex 2)) ;;;
        rawMaxFeePerGas <- getProp rawTx "maxFeePerGas" ;;
        rawMaxPriorityFeePerGas <- getProp rawTx "maxPriorityFeePerGas" ;;
        let useFrameMaxFeePerGas := useFrameValue rawMaxFeePerGas in
        let useFrameMaxPriorityFeePerGas := useFrameValue rawMaxPriorityFeePerGas in
        if negb useFrameMaxFeePerGas && negb useFrameMaxPriorityFeePerGas then ret txData
        else
          (if useFrameMaxFeePerGas && useFrameMaxPriorityFeePerGas
           then setProp txData "gasFeesSource" GasFeesSource.Frame
           else ret tt) ;;;
          let maxPriorityFee :=
            if useFrameMaxPriorityFeePerGas && truthy (maxPriorityFeePerGas gasFees)
            then maxPriorityFeePerGas gasFees
            else rawMaxPriorityFeePerGas in
          ownMaxFeePerGas <- getProp txData "maxFeePerGas" ;;
          setProp txData "maxFeePerGas"
            (if useFrameMaxFeePerGas && truthy (maxBaseFeePerGas gasFees)
             then VString (calculateMaxFeePerGas (maxBaseFeePerGas gasFees) maxPriorityFee)
             else ownMaxFeePerGas) ;;;
          ownMaxPriorityFeePerGas <- getProp txData "maxPriorityFeePerGas" ;;
          setProp txData "maxPriorityFeePerGas"
            (if useFrameMaxPriorityFeePerGas
             then VString (addHexPrefix
                    (BigNumberJs.toString (BigNumberJs.BigNumber maxPriorityFee) 16))
             else ownMaxPriorityFeePerGas) ;;;
          ret txData
  end.

End OnStore.

(* ===================================================================== *)
(** * Vocabulary of the statements *)
(* ===================================================================== *)

(** A fee field holds a valid hex integer: it is a string and [parseInt]
    reads a number from it in base 16. *)
Definition isValidHex (v : JSValue) : bool :=
  match v with
  | VString _ => negb (isNaN (parseInt v 16))
  | _ => false
  end.

(** A fee field is missing: it is absent (or [undefined]), or it is a string
    that fails to parse as a hex integer. *)
Definition isMissing (v : JSValue) : bool :=
  match v with
  | VUndefined => true
  | VString _ => isNaN (parseInt v 16)
  | VBool _ => false
  end.

(** A price is the literal of the integer [n]: a string that
    [BigNumberJs.readLiteral] reads, that is [0x] or [0X] followed by
    hexadecimal digits whose letters are all in lower case or all in upper
    case, or decimal digits alone; no sign, fraction, exponent or space. *)
Definition isQuantity (v : JSValue) (n : N) : Prop :=
  exists s, v = VString s /\ BigNumberJs.readLiteral s = Some n.

(** Lower-case hexadecimal with the [0x] prefix and no padding. *)
Definition hexEncode (n : N) : string := "0x" +:+ toStringRadix n 16.

(** The fee-market case of [populate]: EIP-1559 is activated and the snapshot
    has a [fees] estimate. *)
Definition feeMarketActive (chainConfig : Common) (gas : Gas) : bool :=
  isActivatedEIP chainConfig 1559 && bool_decide (is_Some (fees (price gas))).

(** The number a [type] encodes, if any. *)
Definition typeCode (txData : TransactionData) : option Z :=
  parseInt (get "type" txData) 16.

Definition hasField (k : string) (txData : TransactionData) : bool :=
  bool_decide (is_Some (txData !! k)).

(** [type] agrees with the fee fields: a fee-market type comes with no
    meaningful [gasPrice], a legacy or access-list type with neither
    [maxFeePerGas] nor [maxPriorityFeePerGas]. *)
Definition typeConsistent (txData : TransactionData) : bool :=
  match typeCode txData with
  | Some 2%Z => negb (truthy (get "gasPrice" txData))
  | Some 0%Z | Some 1%Z =>
      negb (hasField "maxFeePerGas" txData) && negb (hasField "maxPriorityFeePerGas" txData)
  | _ => true
  end.

(** The fee fields the output type makes active are filled with valid hex. *)
Definition feeFieldsFilled (chainConfig : Common) (gas : Gas) (txData : TransactionData) : bool :=
  if feeMarketActive chainConfig gas
  then isValidHex (get "maxFeePerGas" txData) && isValidHex (get "maxPriorityFeePerGas" txData)
  else isValidHex (get "gasPrice" txData).

(** The fields [populate] may write. *)
Definition feeKeys : list string :=
  ["type"; "gasPrice"; "maxFeePerGas"; "maxPriorityFeePerGas"; "gasFeesSource"].

(** Chains, snapshots and requests used as concrete inputs below. *)
Module Sample.

Definition london : Common := {| isActivatedEIP := fun eip => (eip =? 1559)%N || (eip =? 2930)%N |}.
Definition berlin : Common := {| isActivatedEIP := fun eip => (eip =? 2930)%N |}.
Definition frontier : Common := {| isActivatedEIP := fun _ => false |}.

Definition gasLevels : GasLevels :=
  {| slow := VString "0x3b9aca00"; standard := VString "0x4a817c800";
     fast := VString "0x59682f000"; asap := VString "0x6fc23ac00"; custom := VUndefined |}.

Definition feeEstimate : GasFees :=
  {| nextBaseFee := VString "0x2faf0800"; maxBaseFeePerGas := VString "0x3b9aca00";
     maxPriorityFeePerGas := VString "0x77359400"; maxFeePerGas := VString "0xb2d05e00" |}.

Definition gasWithFees : Gas :=
  {| price := {| levels := gasLevels; fees := Some feeEstimate |} |}.

Definition gasWithoutFees : Gas :=
  {| price := {| levels := gasLevels; fees := None |} |}.

(** A request as a dapp sends it: no type, no fee fields. *)
Definition bare : TransactionData :=
  <["chainId" := VString "0x1"]> (<["to" := VString "0x22dd63c3619818fdbc262c78baee43cb61e9cccf"]>
  (<["value" := VString "0xde0b6b3a7640000"]> (<["gasLimit" := VString "0x5208"]>
  (<["gasFeesSource" := GasFeesSource.Dapp]> ∅)))).

(** A legacy request with both fee-market fields supplied by the dapp. *)
Definition legacyWithMaxFees : TransactionData :=
  <["type" := VString "0x0"]> (<["maxFeePerGas" := VString "0x64"]>
  (<["maxPriorityFeePerGas" := VString "0x5"]> bare)).

(** A fee-market request with both fields supplied by the dapp. *)
Definition londonWithMaxFees : TransactionData :=
  <["type" := VString "0x2"]> (<["maxFeePerGas" := VString "0x64"]>
  (<["maxPriorityFeePerGas" := VString "0x5"]> bare)).

(** A request with a dapp-supplied gas price. *)
Definition withGasPrice : TransactionData :=
  <["gasPrice" := VString "0x4a817c800"]> bare.

(** A store holding one request. *)
Definition requestStore : gmap positive (gmap string JSValue) := {[ 1%positive := bare ]}.

(** A signer whose type is not a key of the compatibility table. *)
Definition unknownSigner : SignerSummary :=
  {| type := "toString"; appVersion := {| major := 1; minor := 0; patch := 0 |}; model := None |}.

(** Requests to classify. *)
Definition deployParams : TxParams := {| to := None; data := Some "0x60806040" |}.
Definition callParams : TxParams :=
  {| to := Some "0x22dd63c3619818fdbc262c78baee43cb61e9cccf"; data := Some "0xabcd" |}.
Definition emptyDataParams : TxParams :=
  {| to := Some "0x22dd63c3619818fdbc262c78baee43cb61e9cccf"; data := Some "0x" |}.

Definition deployRequest : TransactionRequest :=
  {| payload := {| params := [deployParams] |}; recipientType := Some "external" |}.
Definition sendDataRequest : TransactionRequest :=
  {| payload := {| params := [callParams] |}; recipientType := Some "external" |}.
Definition contractCallRequest : TransactionRequest :=
  {| payload := {| params := [callParams] |}; recipientType := Some "contract" |}.
Definition transferRequest : TransactionRequest :=
  {| payload := {| params := [emptyDataParams] |}; recipientType := Some "contract" |}.

End Sample.

(* ===================================================================== *)
(** * hexifySignature and the ruleset of sign *)
(* ===================================================================== *)

(** The signature a signer returns (lines 40-44). *)
Record Signature : Type := {
  v : string;
  r : string;
  s : string
}.

(** Lines 136-142. *)
Definition hexifySignature (sig : Signature) : Signature :=
  {| v := addHexPrefix (v sig);
     r := addHexPrefix (r sig);
     s := addHexPrefix (s sig) |}.

(** Lines 145-148.  [sign] is asynchronous and builds its transactions with
    @ethereumjs/tx; what is modelled of it is the pair of arguments it passes
    to [chainConfig]: the chain id read from [rawTx.chainId] and the hardfork
    name, 'london' when [parseInt(rawTx.type, 16) === 2] and 'berlin'
    otherwise. *)
Definition signChainConfigArgs (rawTx : TransactionData) : option Z * string :=
  (parseInt (get "chainId" rawTx) 16,
   match parseInt (get "type" rawTx) 16 with
   | Some 2%Z => "london"
   | _ => "berlin"
   end).

(** A fee field of a request is missing or valid hex; it is missing or an
    integer literal. *)
Definition validOrMissing (value : JSValue) : Prop :=
  isMissing value = true \/ isValidHex value = true.

Definition literalOrMissing (value : JSValue) : Prop :=
  isMissing value = true \/ exists n, isQuantity value n.

(* ===================================================================== *)
(** * Semantic versions *)
(* ===================================================================== *)

Local Open Scope Z_scope.

(** [version] is release [M.m.p] or a later one. *)
Definition versionAtLeast (version : AppVersion) (M m p : Z) : Prop :=
  major version > M \/
  (major version = M /\ (minor version > m \/ (minor version = m /\ patch version >= p))).

(** Precedence of semantic versions: major, then minor, then patch. *)
Definition versionLe (a b : AppVersion) : Prop :=
  major a < major b \/
  (major a = major b /\ (minor a < minor b \/ (minor a = minor b /\ patch a <= patch b))).

(** The three numbers of a version are non-negative. *)
Definition versionWellFormed (version : AppVersion) : Prop :=
  0 <= major version /\ 0 <= minor version /\ 0 <= patch version.

Local Close Scope Z_scope.

(** The keys of the compatibility table and the members of
    [Object.prototype]. *)
Definition tableKeys : list string := ["seed"; "ring"; "ledger"; "trezor"; "lattice"].

Definition throwingKeys : list string := ["__defineGetter__"; "__defineSetter__"; "__proto__"].

(** Further inputs for the statements on [populate] and the signers. *)
Module Fixture.

(** A snapshot with no "fast" level, and estimates lacking one of the fees. *)
Definition gasWithoutFast : Gas :=
  {| price := {| levels := {| slow := VString "0x3b9aca00"; standard := VString "0x4a817c800";
                              fast := VUndefined; asap := VUndefined; custom := VUndefined |};
                 fees := None |} |}.

Definition gasWithoutBaseFee : Gas :=
  {| price := {| levels := Sample.gasLevels;
                 fees := Some {| nextBaseFee := VUndefined; maxBaseFeePerGas := VUndefined;
                                 maxPriorityFeePerGas := VString "0x77359400";
                                 maxFeePerGas := VUndefined |} |} |}.

Definition estimateWithoutPriorityFee : GasFees :=
  {| nextBaseFee := VString "0x2faf0800"; maxBaseFeePerGas := VString "0x3b9aca00";
     maxPriorityFeePerGas := VUndefined; maxFeePerGas := VUndefined |}.

Definition gasWithoutPriorityFee : Gas :=
  {| price := {| levels := Sample.gasLevels; fees := Some estimateWithoutPriorityFee |} |}.

(** Requests with one of the two fee-market fields supplied by the dapp. *)
Definition onlyMaxFee : TransactionData :=
  <["maxFeePerGas" := VString "0x1"]> Sample.bare.

Definition onlyMaxPriorityFee : TransactionData :=
  <["maxPriorityFeePerGas" := VString "10"]> Sample.bare.

(** A request whose priority fee is written with upper-case digits. *)
Definition upperCaseMaxPriorityFee : TransactionData :=
  <["maxPriorityFeePerGas" := VString "0xFF"]> Sample.bare.

(** Signers of the table. *)
Definition ledger (M m p : Z) : SignerSummary :=
  {| type := "ledger"; appVersion := {| major := M; minor := m; patch := p |}; model := None |}.

Definition lattice (M m p : Z) : SignerSummary :=
  {| type := "lattice"; appVersion := {| major := M; minor := m; patch := p |}; model := None |}.

Definition protoSigner : SignerSummary :=
  {| type := "__proto__"; appVersion := {| major := 1; minor := 0; patch := 0 |}; model := None |}.

(** A store holding a fee-market transaction and a legacy one. *)
Definition twoTransactions : gmap positive (gmap string JSValue) :=
  <[1%positive := Sample.londonWithMaxFees]> (<[2%positive := Sample.withGasPrice]> ∅).

(** A signature as a signer returns it, partly prefixed. *)
Definition rawSignature : Signature :=
  {| v := "1c"; r := "0x5b2a"; s := "7f" |}.

(** A request that sends value to an address, without data. *)
Definition plainParams : TxParams :=
  {| to := Some "0x22dd63c3619818fdbc262c78baee43cb61e9cccf"; data := None |}.

Definition plainTransfer : TransactionRequest :=
  {| payload := {| params := [plainParams] |}; recipientType := None |}.

End Fixture.

(* ===================================================================== *)
(** * Assets of an account (src/main/provider/assets/index.ts) *)
(* ===================================================================== *)

Module Assets.

(** What the module imports and the sources do not include: the types
    [TokenBalance], [NativeCurrency] and [Record<string, Rate>] of
    main/store/state with the three fields of a balance the module reads
    ([hideByDefault] is optional and only tested for truth), the constant
    [NATIVE_CURRENCY] of resources/constants, [toTokenId] of
    resources/domain/balance, and the literal [{ usd: { price: 0 } }] at the
    two types it is returned at. *)
Class Declarations : Type := {
  TokenBalance : Type;
  NativeCurrency : Type;
  Rates : Type;
  chainId : TokenBalance -> N;
  address : TokenBalance -> string;
  hideByDefault : TokenBalance -> bool;
  NATIVE_CURRENCY : string;
  toTokenId : TokenBalance -> string;
  zeroPriceCurrency : NativeCurrency;
  zeroPriceRates : Rates
}.

Section WithDeclarations.

Context `{Declarations}.

Record Preference : Type := {
  hidden : bool
}.

(** The part of the application state the module reads through [store]:
    - [balances account] is [store('main.balances', account)];
    - [networksMeta chainId] is
      [store('main.networksMeta.ethereum', chainId, 'nativeCurrency')];
    - [rates tokenId] is [store('main.rates', tokenId)];
    - [lastUpdated account] is
      [store('main.accounts', account, 'balances.lastUpdated')];
    - [tokens] is [store('main.assetPreferences').tokens];
    - [current] is [store('selected.current')].
    A path with no value reads as [None]. *)
Record State : Type := {
  balances : string -> option (list TokenBalance);
  networksMeta : N -> option NativeCurrency;
  rates : string -> option Rates;
  lastUpdated : string -> option Z;
  tokens : gmap string Preference;
  current : option string
}.

(** Lines 14-32. *)
Definition getBalances (st : State) (account : string) : list TokenBalance :=
  default [] (balances st account).

Definition getNativeCurrency (st : State) (chain : N) : NativeCurrency :=
  default zeroPriceCurrency (networksMeta st chain).

Definition getUsdRate (st : State) (tokenId : string) : Rates :=
  default zeroPriceRates (rates st tokenId).

Definition getLastUpdated (st : State) (account : string) : option Z :=
  lastUpdated st account.

Definition getAssetPreferences (st : State) : gmap string Preference :=
  tokens st.

(** The entries of the answer: [{ ...balance, currencyInfo }] and
    [{ ...balance, tokenInfo: { lastKnownPrice } }]. *)
Record NativeCurrencyAsset : Type := {
  nativeBalance : TokenBalance;
  currencyInfo : NativeCurrency
}.

Record Erc20Asset : Type := {
  tokenBalance : TokenBalance;
  lastKnownPrice : Rates
}.

Record GetAssets : Type := {
  nativeCurrency : list NativeCurrencyAsset;
  erc20 : list Erc20Asset
}.

(** [balance.chainId + ':' + balance.address]; the chain id is a
    non-negative integer and prints in decimal. *)
Definition preferenceKey (balance : TokenBalance) : string :=
  toStringRadix (chainId balance) 10 +:+ ":" +:+ address balance.

(** [prefs ? prefs.hidden : balance.hideByDefault] (lines 76-77).  The key
    holds a colon, so it is never a member of [Object.prototype]. *)
Definition isHidden (assetPreferences : gmap string Preference) (balance : TokenBalance) : bool :=
  match assetPreferences !! preferenceKey balance with
  | Some prefs => hidden prefs
  | None => hideByDefault balance
  end.

(** Lines 65-99: [reduce] over the balances, each [push] appending to one of
    the two lists of the accumulator. *)
Definition fetchAssets (st : State) (accountId : string) : GetAssets :=
  let balances := getBalances st accountId in
  let response := {| nativeCurrency := []; erc20 := [] |} in
  let assetPreferences := getAssetPreferences st in
  fold_left
    (fun assets balance =>
       if isHidden assetPreferences balance then assets
       else if String.eqb (address balance) NATIVE_CURRENCY then
         let currency := getNativeCurrency st (chainId balance) in
         {| nativeCurrency :=
              nativeCurrency assets ++ [{| nativeBalance := balance; currencyInfo := currency |}];
            erc20 := erc20 assets |}
       else
         let usdRate := getUsdRate st (toTokenId balance) in
         {| nativeCurrency := nativeCurrency assets;
            erc20 :=
              erc20 assets ++ [{| tokenBalance := balance; lastKnownPrice := usdRate |}] |})
    balances response.

(** Lines 101-104; [now] is [new Date().getTime()].  [!lastUpdated] holds
    for a missing time stamp and for 0. *)
Definition isScanning (st : State) (now : Z) (account : string) : bool :=
  match getLastUpdated st account with
  | None => true
  | Some updated => (updated =? 0)%Z || (1000 * 60 * 5 <? now - updated)%Z
  end.

(** Lines 59-63. *)
Definition loadAssets (st : State) (now : Z) (accountId : string) : Completion GetAssets :=
  if isScanning st now accountId then Throw "assets not known for account"
  else Return (fetchAssets st accountId).

(** Lines 34-57.  The observer keeps [debouncedAssets] between calls; each
    [setTimeout] leaves a pending callback that remembers the
    [currentAccountId] of the call that set it.  All delays are equal, so
    callbacks run in the order they were set. *)
Record Observer : Type := {
  debouncedAssets : option GetAssets;
  pending : list string
}.

Definition createObserver : Observer :=
  {| debouncedAssets := None; pending := [] |}.

(** One call of the observer (lines 37-56), the store being [st] and the
    clock [now]. *)
Definition observe (st : State) (now : Z) (observer : Observer) : Observer :=
  match current st with
  | Some currentAccountId =>
      if String.eqb currentAccountId "" then observer
      else
        let assets := fetchAssets st currentAccountId in
        if negb (isScanning st now currentAccountId) &&
           ((0 <? length (erc20 assets))%nat || (0 <? length (nativeCurrency assets))%nat)
        then
          {| debouncedAssets := Some assets;
             pending := match debouncedAssets observer with
                        | None => pending observer ++ [currentAccountId]
                        | Some _ => pending observer
                        end |}
        else observer
  | None => observer
  end.

(** The oldest pending callback runs (lines 45-50): it reports the assets
    kept at that moment, if any, to [handler.assetsChanged] and clears them.
    With no callback pending nothing happens. *)
Definition timeout (observer : Observer) : option (string * GetAssets) * Observer :=
  match pending observer with
  | [] => (None, observer)
  | currentAccountId :: rest =>
      match debouncedAssets observer with
      | Some assets =>
          (Some (currentAccountId, assets), {| debouncedAssets := None; pending := rest |})
      | None => (None, {| debouncedAssets := None; pending := rest |})
      end
  end.

(** What happens to an observer: the store notifies it, or a timer fires. *)
Inductive Event : Type :=
  | StoreChanged (st : State) (now : Z)
  | TimerFired.

(** The calls of [handler.assetsChanged], in order, and the final state. *)
Fixpoint run (events : list Event) (observer : Observer)
  : list (string * GetAssets) * Observer :=
  match events with
  | [] => ([], observer)
  | StoreChanged st now :: events' => run events' (observe st now observer)
  | TimerFired :: events' =>
      let '(call, observer') := timeout observer in
      let '(calls, final) := run events' observer' in
      (match call with Some c => c :: calls | None => calls end, final)
  end.

(** Vocabulary of the statements: a balance is listed, and on which side. *)
Definition isNative (balance : TokenBalance) : bool :=
  String.eqb (address balance) NATIVE_CURRENCY.

Definition asNative (st : State) (balance : TokenBalance) : NativeCurrencyAsset :=
  {| nativeBalance := balance; currencyInfo := getNativeCurrency st (chainId balance) |}.

Definition asErc20 (st : State) (balance : TokenBalance) : Erc20Asset :=
  {| tokenBalance := balance; lastKnownPrice := getUsdRate st (toTokenId balance) |}.

Definition isEmpty (assets : GetAssets) : bool :=
  match nativeCurrency assets, erc20 assets with
  | [], [] => true
  | _, _ => false
  end.


(** The states of an observer between two events: either nothing is kept and
    no callback is pending, or assets that list something are kept and
    exactly one callback is pending. *)
Definition settled (observer : Observer) : Prop :=
  (debouncedAssets observer = None /\ pending observer = []) \/
  (exists assets account,
     debouncedAssets observer = Some assets /\ pending observer = [account] /\
     isEmpty assets = false).

(** The number of changes of the store and of timers among the events. *)
Fixpoint storeChanges (events : list Event) : nat :=
  match events with
  | [] => 0
  | StoreChanged _ _ :: events' => S (storeChanges events')
  | TimerFired :: events' => storeChanges events'
  end.

Fixpoint timersFired (events : list Event) : nat :=
  match events with
  | [] => 0
  | StoreChanged _ _ :: events' => timersFired events'
  | TimerFired :: events' => S (timersFired events')
  end.

End WithDeclarations.

(** A concrete instance, for the examples. *)
Record SampleBalance : Type := {
  sampleChain : N;
  sampleAddress : string;
  sampleSymbol : string;
  sampleHide : bool
}.

#[export] Instance sampleDeclarations : Declarations := {|
  TokenBalance := SampleBalance;
  NativeCurrency := string;
  Rates := Z;
  chainId := sampleChain;
  address := sampleAddress;
  hideByDefault := sampleHide;
  NATIVE_CURRENCY := "0x0000000000000000000000000000000000000000";
  toTokenId := fun balance =>
    toStringRadix (sampleChain balance) 10 +:+ ":" +:+ sampleAddress balance;
  zeroPriceCurrency := "none";
  zeroPriceRates := 0%Z
|}.

Definition ether : SampleBalance :=
  {| sampleChain := 1; sampleAddress := "0x0000000000000000000000000000000000000000";
     sampleSymbol := "ETH"; sampleHide := false |}.

Definition dai : SampleBalance :=
  {| sampleChain := 1; sampleAddress := "0x6b175474e89094c44da98b954eedeac495271d0f";
     sampleSymbol := "DAI"; sampleHide := false |}.

Definition spam : SampleBalance :=
  {| sampleChain := 1; sampleAddress := "0x00000000000000000000000000000000deadbeef";
     sampleSymbol := "FREE"; sampleHide := true |}.

Definition usdc : SampleBalance :=
  {| sampleChain := 10; sampleAddress := "0x0b2c639c533813f4aa9d7837caf62653d097ff85";
     sampleSymbol := "USDC"; sampleHide := false |}.

Definition alice : string := "0xa11ce00000000000000000000000000000000000".
Definition bob : string := "0xb0b0000000000000000000000000000000000000".

(** Alice holds four balances and has hidden DAI; Bob holds USDC.  Both were
    updated at time 1000000. *)
Definition sampleState (selected : string) : State :=
  {| balances := fun account =>
       if String.eqb account alice then Some [ether; dai; spam; usdc]
       else if String.eqb account bob then Some [usdc]
       else None;
     networksMeta := fun chain => if (chain =? 1)%N then Some "ether" else None;
     rates := fun _ => None;
     lastUpdated := fun account =>
       if String.eqb account alice || String.eqb account bob then Some 1000000%Z else None;
     tokens := {[ "1:0x6b175474e89094c44da98b954eedeac495271d0f" := {| hidden := true |} ]};
     current := Some selected |}.

End Assets.

(* ===================================================================== *)
(** * Digits and hexadecimal encoding *)
(* ===================================================================== *)

Section Digits.
Local Open Scope N_scope.

Lemma alphabetIndex_digitChar d : d < 36 -> alphabetIndex (digitChar d) = Some d.
Proof.
  intros Hd. unfold alphabetIndex, digitChar.
  destruct (d <? 10) eqn:E.
  - apply N.ltb_lt in E. rewrite N_ascii_embedding by lia.
    replace (48 <=? 48 + d) with true by (symmetry; apply N.leb_le; lia).
    replace (48 + d <=? 57) with true by (symmetry; apply N.leb_le; lia).
    simpl. f_equal. lia.
  - apply N.ltb_ge in E. rewrite N_ascii_embedding by lia.
    replace (48 <=? 87 + d) with true by (symmetry; apply N.leb_le; lia).
    replace (87 + d <=? 57) with false by (symmetry; apply N.leb_gt; lia).
    replace (97 <=? 87 + d) with true by (symmetry; apply N.leb_le; lia).
    replace (87 + d <=? 122) with true by (symmetry; apply N.leb_le; lia).
    simpl. f_equal. lia.
Qed.

Lemma readDigits_app radix s1 s2 acc :
  readDigits radix (s1 +:+ s2) acc =
  match readDigits radix s1 acc with
  | Some a => readDigits radix s2 a
  | None => None
  end.
Proof.
  revert acc. induction s1 as [|c s1 IH]; intros acc; simpl; [reflexivity|].
  destruct (alphabetIndex c) as [d|]; [|reflexivity].
  destruct (d <? radix); [apply IH | reflexivity].
Qed.

Lemma readDigits_digitsOf radix fuel n :
  2 <= radix <= 36 -> n < 2 ^ N.of_nat fuel ->
  readDigits radix (digitsOf fuel radix n) 0 = Some n.
Proof.
  intros Hr. revert n. induction fuel as [|fuel IH]; intros n Hn.
  - simpl in *. f_equal. lia.
  - cbn [digitsOf]. destruct (n <? radix) eqn:E.
    + apply N.ltb_lt in E. simpl. rewrite alphabetIndex_digitChar by lia.
      replace (n <? radix) with true by (symmetry; apply N.ltb_lt; lia).
      reflexivity.
    + apply N.ltb_ge in E. rewrite readDigits_app, IH.
      * simpl. assert (Hm : n mod radix < radix) by (apply N.mod_lt; lia).
        rewrite alphabetIndex_digitChar by lia.
        replace (n mod radix <? radix) with true by (symmetry; apply N.ltb_lt; lia).
        f_equal. rewrite (N.div_mod n radix) at 3 by lia. lia.
      * rewrite Nat2N.inj_succ, N.pow_succ_r' in Hn.
        apply N.Div0.div_lt_upper_bound.
        nia.
Qed.

Lemma readDigits_toStringRadix radix n :
  2 <= radix <= 36 -> readDigits radix (toStringRadix n radix) 0 = Some n.
Proof.
  intros Hr. unfold toStringRadix. apply readDigits_digitsOf; [exact Hr|].
  rewrite Nat2N.inj_succ, N2Nat.id.
  destruct n as [|p]; [reflexivity|].
  apply N.log2_spec. lia.
Qed.

Lemma isHexPrefixed_toStringRadix n : isHexPrefixed (toStringRadix n 16) = false.
Proof.
  pose proof (readDigits_toStringRadix 16 n ltac:(lia)) as H.
  destruct (toStringRadix n 16) as [|a [|b s]]; try reflexivity.
  - destruct a as [[] [] [] [] [] [] [] []]; reflexivity.
  - destruct a as [[] [] [] [] [] [] [] []]; try reflexivity.
    destruct b as [[] [] [] [] [] [] [] []]; try reflexivity.
    cbn in H. discriminate H.
Qed.

End Digits.

Example toStringRadix_gwei : toStringRadix 1000000000 16 = "3b9aca00".
Proof. reflexivity. Qed.

Example intToHex_types : (intToHex 0, intToHex 1, intToHex 2) = ("0x0", "0x1", "0x2").
Proof. reflexivity. Qed.

Example parseInt_prefix : parseInt (VString "0x64") 16 = Some 100%Z.
Proof. reflexivity. Qed.

Example parseInt_stops_at_first_non_digit : parseInt (VString "  -0Xff, more") 16 = Some (-255)%Z.
Proof. reflexivity. Qed.

Example parseInt_no_digits :
  (parseInt (VString "0x") 16, parseInt (VString "") 16, parseInt VUndefined 16) = (None, None, None).
Proof. reflexivity. Qed.

Example addHexPrefix_NaN :
  addHexPrefix (BigNumberJs.toString (BigNumberJs.BigNumber VUndefined) 16) = "0xNaN".
Proof. reflexivity. Qed.

Lemma addHexPrefix_toStringRadix n : addHexPrefix (toStringRadix n 16) = hexEncode n.
Proof. unfold addHexPrefix. now rewrite isHexPrefixed_toStringRadix. Qed.

(** The encoding reads back as the number: it is its hexadecimal literal. *)
Lemma readHexDigits_lower digits n :
  readDigits 16 digits 0 = Some n -> BigNumberJs.readHexDigits digits = Some n.
Proof. intros H. unfold BigNumberJs.readHexDigits. now rewrite H. Qed.

Lemma readLiteral_hexEncode n : BigNumberJs.readLiteral (hexEncode n) = Some n.
Proof.
  pose proof (readDigits_toStringRadix 16 n ltac:(lia)) as H.
  unfold hexEncode, BigNumberJs.readLiteral. cbn [String.append stripHexPrefix0x].
  destruct (toStringRadix n 16) as [|c s] eqn:E.
  - unfold toStringRadix in E. cbn [digitsOf] in E.
    destruct (n <? 16)%N; [discriminate E|].
    destruct (digitsOf _ _ _); discriminate E.
  - now apply readHexDigits_lower.
Qed.

Lemma isQuantity_truthy v n : isQuantity v n -> truthy v = true.
Proof. intros (s & -> & H). destruct s; [discriminate H | reflexivity]. Qed.

Lemma isQuantity_BigNumber v n : isQuantity v n -> BigNumberJs.BigNumber v = BigNumberJs.Int n.
Proof. intros (s & -> & H). unfold BigNumberJs.BigNumber. cbn [ToString]. now rewrite H. Qed.

(** The notations of a literal: both cases of the prefix and of the digits,
    and decimal; digits of mixed case are not a number. *)
Example readLiteral_lower_case : BigNumberJs.readLiteral "0xff" = Some 255%N.
Proof. reflexivity. Qed.

Example readLiteral_upper_case : BigNumberJs.readLiteral "0xFF" = Some 255%N.
Proof. reflexivity. Qed.

Example readLiteral_upper_case_prefix : BigNumberJs.readLiteral "0X3B9ACA00" = Some 1000000000%N.
Proof. reflexivity. Qed.

Example readLiteral_decimal : BigNumberJs.readLiteral "255" = Some 255%N.
Proof. reflexivity. Qed.

Example readLiteral_mixed_case : BigNumberJs.readLiteral "0xfF" = None.
Proof. reflexivity. Qed.

Example calculateMaxFeePerGas_upper_case :
  calculateMaxFeePerGas (VString "0xFF") (VString "0x1") = "0x100".
Proof. reflexivity. Qed.

(* ===================================================================== *)
(** * populate: the two branches *)
(* ===================================================================== *)

Lemma isValidHex_useFrameValue v : isValidHex v = true -> useFrameValue v = false.
Proof.
  destruct v as [|b|s]; try discriminate. cbn [isValidHex]. intros H.
  unfold useFrameValue. apply negb_true_iff in H. rewrite H, orb_false_r.
  destruct s; [discriminate H | reflexivity].
Qed.

Lemma isMissing_useFrameValue v : isMissing v = true -> useFrameValue v = true.
Proof.
  destruct v as [|b|s]; try discriminate; [reflexivity|]. cbn [isMissing]. intros H.
  unfold useFrameValue. rewrite H. apply orb_true_r.
Qed.

Lemma feeMarketActive_true chainConfig gas :
  feeMarketActive chainConfig gas = true <->
  isActivatedEIP chainConfig 1559 = true /\ exists gasFees, fees (price gas) = Some gasFees.
Proof.
  unfold feeMarketActive. rewrite andb_true_iff, bool_decide_eq_true. reflexivity.
Qed.

Lemma feeMarketActive_false chainConfig gas :
  feeMarketActive chainConfig gas = false <->
  isActivatedEIP chainConfig 1559 = false \/ fees (price gas) = None.
Proof.
  unfold feeMarketActive. rewrite andb_false_iff, bool_decide_eq_false.
  rewrite <- eq_None_not_Some. reflexivity.
Qed.

Lemma populate_legacy rawTx chainConfig gas :
  feeMarketActive chainConfig gas = false ->
  populate rawTx chainConfig gas = populateLegacy rawTx chainConfig gas.
Proof.
  intros H. apply feeMarketActive_false in H. unfold populate.
  destruct (fees (price gas)); [|reflexivity].
  destruct H as [-> | H]; [reflexivity | discriminate H].
Qed.

Lemma populate_london rawTx chainConfig gas gasFees :
  isActivatedEIP chainConfig 1559 = true -> fees (price gas) = Some gasFees ->
  populate rawTx chainConfig gas = populateLondon rawTx gasFees.
Proof. intros H1 H2. unfold populate. now rewrite H2, H1. Qed.

Lemma populateLegacy_type rawTx chainConfig gas :
  populateLegacy rawTx chainConfig gas !! "type" =
  Some (VString (if isActivatedEIP chainConfig 2930 then "0x1" else "0x0")).
Proof.
  unfold populateLegacy.
  destruct (useFrameValue _); simplify_map_eq; destruct (isActivatedEIP chainConfig 2930); reflexivity.
Qed.

Lemma populateLegacy_untouched rawTx chainConfig gas k :
  k <> "type" -> k <> "gasPrice" -> k <> "gasFeesSource" ->
  populateLegacy rawTx chainConfig gas !! k = rawTx !! k.
Proof.
  intros. unfold populateLegacy. destruct (useFrameValue _); now simplify_map_eq.
Qed.

Lemma populateLondon_type rawTx gasFees :
  populateLondon rawTx gasFees !! "type" = Some (VString "0x2").
Proof.
  unfold populateLondon.
  repeat match goal with |- context [if ?b then _ else _] => destruct b end;
    now simplify_map_eq.
Qed.

Lemma populateLondon_untouched rawTx gasFees k :
  k <> "type" -> k <> "maxFeePerGas" -> k <> "maxPriorityFeePerGas" -> k <> "gasFeesSource" ->
  populateLondon rawTx gasFees !! k = rawTx !! k.
Proof.
  intros. unfold populateLondon.
  destruct (negb _ && negb _); [now simplify_map_eq|].
  destruct (useFrameValue _ && useFrameValue _); now simplify_map_eq.
Qed.

(** With both fee-market fields valid, the fee-market branch only sets the
    type. *)
Lemma populate_only_sets_type rawTx chainConfig gas :
  isActivatedEIP chainConfig 1559 = true ->
  is_Some (fees (price gas)) ->
  isValidHex (get "maxFeePerGas" rawTx) = true ->
  isValidHex (get "maxPriorityFeePerGas" rawTx) = true ->
  populate rawTx chainConfig gas = <["type" := VString "0x2"]> rawTx.
Proof.
  intros H1559 [gasFees Hfees] HmaxFee HmaxPriority.
  rewrite (populate_london _ _ _ gasFees) by assumption. unfold populateLondon.
  rewrite (isValidHex_useFrameValue _ HmaxFee), (isValidHex_useFrameValue _ HmaxPriority).
  reflexivity.
Qed.

(* ===================================================================== *)
(** * populate: the fee-market branch with both fields supplied (C1) *)
(* ===================================================================== *)

(** C1, as stated, fails: on an EIP-1559 chain with a fee estimate, a request
    of type 0x0 whose [maxFeePerGas] and [maxPriorityFeePerGas] are valid hex
    comes back with type 0x2, so it is not returned unchanged. *)
Lemma populate_valid_fees_rewrites_type :
  isActivatedEIP Sample.london 1559 = true /\
  is_Some (fees (price Sample.gasWithFees)) /\
  isValidHex (get "maxFeePerGas" Sample.legacyWithMaxFees) = true /\
  isValidHex (get "maxPriorityFeePerGas" Sample.legacyWithMaxFees) = true /\
  get "type" Sample.legacyWithMaxFees = VString "0x0" /\
  get "type" (populate Sample.legacyWithMaxFees Sample.london Sample.gasWithFees) = VString "0x2" /\
  populate Sample.legacyWithMaxFees Sample.london Sample.gasWithFees <> Sample.legacyWithMaxFees.
Proof.
  repeat split; try reflexivity; [eexists; reflexivity|].
  intros H. apply (f_equal (get "type")) in H. vm_compute in H. discriminate H.
Qed.

(** C1, amended: on a chain with EIP-1559 activated and a snapshot with a
    [fees] estimate, a request whose [maxFeePerGas] and [maxPriorityFeePerGas]
    are both valid hex is returned with [type] set to 0x2 and every other
    field, [gasFeesSource] included, as supplied; it is returned unchanged
    exactly when its [type] is 0x2 already. *)
Theorem populate_valid_fees rawTx chainConfig gas :
  isActivatedEIP chainConfig 1559 = true ->
  is_Some (fees (price gas)) ->
  isValidHex (get "maxFeePerGas" rawTx) = true ->
  isValidHex (get "maxPriorityFeePerGas" rawTx) = true ->
  populate rawTx chainConfig gas = <["type" := VString "0x2"]> rawTx /\
  (populate rawTx chainConfig gas = rawTx <-> rawTx !! "type" = Some (VString "0x2")).
Proof.
  intros H1559 Hfees HmaxFee HmaxPriority.
  pose proof (populate_only_sets_type rawTx chainConfig gas H1559 Hfees HmaxFee HmaxPriority) as E.
  split; [exact E|]. rewrite E. split.
  - intros Hsame. rewrite <- Hsame. apply lookup_insert_eq.
  - intros Htype. now apply insert_id.
Qed.

Lemma populate_valid_fees_witness :
  populate Sample.legacyWithMaxFees Sample.london Sample.gasWithFees =
    <["type" := VString "0x2"]> Sample.legacyWithMaxFees /\
  populate Sample.londonWithMaxFees Sample.london Sample.gasWithFees = Sample.londonWithMaxFees.
Proof.
  split.
  - apply (populate_valid_fees Sample.legacyWithMaxFees Sample.london Sample.gasWithFees);
      [reflexivity | eexists; reflexivity | reflexivity | reflexivity].
  - apply (populate_valid_fees Sample.londonWithMaxFees Sample.london Sample.gasWithFees);
      [reflexivity | eexists; reflexivity | reflexivity | reflexivity | reflexivity].
Defined.

(* ===================================================================== *)
(** * populate: the legacy branch (C3, C4) *)
(* ===================================================================== *)

(** C3: when EIP-1559 is not activated or the snapshot has no [fees], the
    output has type 0x1 if EIP-2930 is activated and 0x0 otherwise, and
    [maxFeePerGas] and [maxPriorityFeePerGas] are exactly as in the input
    (absent where they were absent). *)
Theorem populate_legacy_type rawTx chainConfig gas :
  isActivatedEIP chainConfig 1559 = false \/ fees (price gas) = None ->
  get "type" (populate rawTx chainConfig gas) =
    VString (if isActivatedEIP chainConfig 2930 then "0x1" else "0x0") /\
  populate rawTx chainConfig gas !! "maxFeePerGas" = rawTx !! "maxFeePerGas" /\
  populate rawTx chainConfig gas !! "maxPriorityFeePerGas" = rawTx !! "maxPriorityFeePerGas".
Proof.
  intros H. apply feeMarketActive_false in H. rewrite (populate_legacy _ _ _ H).
  split; [|split].
  - unfold get. now rewrite populateLegacy_type.
  - now apply populateLegacy_untouched.
  - now apply populateLegacy_untouched.
Qed.

Lemma populate_legacy_type_witness :
  get "type" (populate Sample.legacyWithMaxFees Sample.berlin Sample.gasWithFees) = VString "0x1" /\
  get "type" (populate Sample.legacyWithMaxFees Sample.frontier Sample.gasWithFees) = VString "0x0" /\
  get "maxFeePerGas" (populate Sample.bare Sample.london Sample.gasWithoutFees) = VUndefined.
Proof.
  split; [|split].
  - apply (populate_legacy_type Sample.legacyWithMaxFees Sample.berlin Sample.gasWithFees).
    left. reflexivity.
  - apply (populate_legacy_type Sample.legacyWithMaxFees Sample.frontier Sample.gasWithFees).
    left. reflexivity.
  - unfold get.
    rewrite (proj1 (proj2 (populate_legacy_type Sample.bare Sample.london Sample.gasWithoutFees
                             (or_intror eq_refl)))).
    reflexivity.
Defined.

(** C4: in the same case, a [gasPrice] that is absent or fails to parse as a
    hex integer is replaced by the hexadecimal encoding of the snapshot's
    "fast" level and [gasFeesSource] becomes Frame; a [gasPrice] that is valid
    hex is kept, and so is [gasFeesSource]. *)
Theorem populate_legacy_gasPrice rawTx chainConfig gas :
  isActivatedEIP chainConfig 1559 = false \/ fees (price gas) = None ->
  (isMissing (get "gasPrice" rawTx) = true ->
   forall n, isQuantity (fast (levels (price gas))) n ->
     get "gasPrice" (populate rawTx chainConfig gas) = VString (hexEncode n) /\
     get "gasFeesSource" (populate rawTx chainConfig gas) = GasFeesSource.Frame) /\
  (isValidHex (get "gasPrice" rawTx) = true ->
     populate rawTx chainConfig gas !! "gasPrice" = rawTx !! "gasPrice" /\
     populate rawTx chainConfig gas !! "gasFeesSource" = rawTx !! "gasFeesSource").
Proof.
  intros H. apply feeMarketActive_false in H. rewrite (populate_legacy _ _ _ H).
  unfold populateLegacy. split.
  - intros Hmissing n Hfast. rewrite (isMissing_useFrameValue _ Hmissing).
    rewrite (isQuantity_BigNumber _ _ Hfast). cbn [BigNumberJs.toString].
    rewrite addHexPrefix_toStringRadix. unfold get. now simplify_map_eq.
  - intros Hvalid. rewrite (isValidHex_useFrameValue _ Hvalid). now simplify_map_eq.
Qed.

Lemma populate_legacy_gasPrice_witness :
  (get "gasPrice" (populate Sample.bare Sample.berlin Sample.gasWithFees) = VString "0x59682f000" /\
   get "gasFeesSource" (populate Sample.bare Sample.berlin Sample.gasWithFees) = GasFeesSource.Frame) /\
  (populate Sample.withGasPrice Sample.london Sample.gasWithoutFees !! "gasPrice"
     = Some (VString "0x4a817c800") /\
   populate Sample.withGasPrice Sample.london Sample.gasWithoutFees !! "gasFeesSource"
     = Some GasFeesSource.Dapp).
Proof.
  split.
  - apply (proj1 (populate_legacy_gasPrice Sample.bare Sample.berlin Sample.gasWithFees
                    (or_introl eq_refl)) eq_refl 24000000000%N).
    exists "0x59682f000". split; reflexivity.
  - apply (proj2 (populate_legacy_gasPrice Sample.withGasPrice Sample.london Sample.gasWithoutFees
                    (or_intror eq_refl)) eq_refl).
Defined.

(* ===================================================================== *)
(** * populate: the fee-market branch with both fields missing (C5) *)
(* ===================================================================== *)

(** C5: with EIP-1559 activated and a [fees] estimate offering the integers
    [baseFee] and [priorityFee], a request whose [maxFeePerGas] and
    [maxPriorityFeePerGas] are both missing or unparseable comes back with
    [gasFeesSource] Frame, [maxPriorityFeePerGas] the hexadecimal encoding of
    [priorityFee], and [maxFeePerGas] the hexadecimal encoding of the exact
    sum [priorityFee + baseFee]. *)
Theorem populate_missing_fees rawTx chainConfig gas gasFees baseFee priorityFee :
  isActivatedEIP chainConfig 1559 = true ->
  fees (price gas) = Some gasFees ->
  isQuantity (maxBaseFeePerGas gasFees) baseFee ->
  isQuantity (maxPriorityFeePerGas gasFees) priorityFee ->
  isMissing (get "maxFeePerGas" rawTx) = true ->
  isMissing (get "maxPriorityFeePerGas" rawTx) = true ->
  get "gasFeesSource" (populate rawTx chainConfig gas) = GasFeesSource.Frame /\
  get "maxPriorityFeePerGas" (populate rawTx chainConfig gas) = VString (hexEncode priorityFee) /\
  get "maxFeePerGas" (populate rawTx chainConfig gas) = VString (hexEncode (priorityFee + baseFee)).
Proof.
  intros H1559 Hfees Hbase Hpriority HmaxFee HmaxPriority.
  rewrite (populate_london _ _ _ gasFees) by assumption. unfold populateLondon.
  rewrite (isMissing_useFrameValue _ HmaxFee), (isMissing_useFrameValue _ HmaxPriority).
  rewrite (isQuantity_truthy _ _ Hbase), (isQuantity_truthy _ _ Hpriority).
  cbn [negb andb]. unfold calculateMaxFeePerGas, BigNumberJs.plus.
  rewrite (isQuantity_BigNumber _ _ Hbase), (isQuantity_BigNumber _ _ Hpriority).
  cbn [BigNumberJs.toString]. rewrite !addHexPrefix_toStringRadix.
  unfold get. now simplify_map_eq.
Qed.

Lemma populate_missing_fees_witness :
  get "gasFeesSource" (populate Sample.bare Sample.london Sample.gasWithFees) = GasFeesSource.Frame /\
  get "maxPriorityFeePerGas" (populate Sample.bare Sample.london Sample.gasWithFees)
    = VString "0x77359400" /\
  get "maxFeePerGas" (populate Sample.bare Sample.london Sample.gasWithFees)
    = VString "0xb2d05e00".
Proof.
  apply (populate_missing_fees Sample.bare Sample.london Sample.gasWithFees Sample.feeEstimate
           1000000000%N 2000000000%N);
    try reflexivity.
  - exists "0x3b9aca00". split; reflexivity.
  - exists "0x77359400". split; reflexivity.
Defined.

(* ===================================================================== *)
(** * populate: idempotence (C9) *)
(* ===================================================================== *)

(** C9: if the output of [populate] has its active fee fields filled with
    valid hex ([gasPrice] in the legacy case, [maxFeePerGas] and
    [maxPriorityFeePerGas] in the fee-market case), populating it again with
    the same ruleset and snapshot returns it unchanged. *)
Theorem populate_idempotent rawTx chainConfig gas :
  feeFieldsFilled chainConfig gas (populate rawTx chainConfig gas) = true ->
  populate (populate rawTx chainConfig gas) chainConfig gas = populate rawTx chainConfig gas.
Proof.
  unfold feeFieldsFilled. destruct (feeMarketActive chainConfig gas) eqn:Hcase.
  - intros Hfilled. apply andb_true_iff in Hfilled as [HmaxFee HmaxPriority].
    apply feeMarketActive_true in Hcase as [H1559 [gasFees Hfees]].
    rewrite populate_only_sets_type; try assumption; [|now exists gasFees].
    apply insert_id.
    rewrite (populate_london _ _ _ gasFees) by assumption. apply populateLondon_type.
  - intros Hvalid. rewrite (populate_legacy (populate rawTx chainConfig gas)) by assumption.
    unfold populateLegacy at 1. rewrite (isValidHex_useFrameValue _ Hvalid).
    apply insert_id. rewrite populate_legacy by assumption. rewrite populateLegacy_type.
    now destruct (isActivatedEIP chainConfig 2930).
Qed.

Lemma populate_idempotent_witness :
  populate (populate Sample.bare Sample.london Sample.gasWithFees) Sample.london Sample.gasWithFees
    = populate Sample.bare Sample.london Sample.gasWithFees /\
  populate (populate Sample.bare Sample.berlin Sample.gasWithFees) Sample.berlin Sample.gasWithFees
    = populate Sample.bare Sample.berlin Sample.gasWithFees.
Proof.
  split.
  - apply (populate_idempotent Sample.bare Sample.london Sample.gasWithFees). reflexivity.
  - apply (populate_idempotent Sample.bare Sample.berlin Sample.gasWithFees). reflexivity.
Defined.

(* ===================================================================== *)
(** * londonToLegacy (C6) *)
(* ===================================================================== *)

(** C6: a transaction of type '0x2' is returned as a copy with type '0x0',
    [gasPrice] holding the original [maxFeePerGas], the keys [maxFeePerGas]
    and [maxPriorityFeePerGas] absent, and every other field as it was; a
    transaction of any other type is returned as it is. *)
Theorem londonToLegacy_spec (txData : TransactionData) :
  (get "type" txData = VString "0x2" ->
     londonToLegacy txData !! "type" = Some (VString "0x0") /\
     londonToLegacy txData !! "gasPrice" = Some (get "maxFeePerGas" txData) /\
     londonToLegacy txData !! "maxFeePerGas" = None /\
     londonToLegacy txData !! "maxPriorityFeePerGas" = None /\
     forall k, k <> "type" -> k <> "gasPrice" -> k <> "maxFeePerGas" ->
               k <> "maxPriorityFeePerGas" ->
               londonToLegacy txData !! k = txData !! k) /\
  (get "type" txData <> VString "0x2" -> londonToLegacy txData = txData).
Proof.
  unfold londonToLegacy. split.
  - intros ->. cbn [strictEqString String.eqb Ascii.eqb Bool.eqb].
    repeat split; intros; now simplify_map_eq.
  - intros Hne. destruct (get "type" txData) as [|b|s]; try reflexivity.
    cbn [strictEqString]. destruct (String.eqb_spec s "0x2") as [->|]; [congruence|reflexivity].
Qed.

Lemma londonToLegacy_spec_witness :
  (londonToLegacy Sample.londonWithMaxFees !! "type" = Some (VString "0x0") /\
   londonToLegacy Sample.londonWithMaxFees !! "gasPrice" = Some (VString "0x64") /\
   londonToLegacy Sample.londonWithMaxFees !! "maxFeePerGas" = None /\
   londonToLegacy Sample.londonWithMaxFees !! "maxPriorityFeePerGas" = None /\
   londonToLegacy Sample.londonWithMaxFees !! "gasLimit" = Some (VString "0x5208")) /\
  londonToLegacy Sample.legacyWithMaxFees = Sample.legacyWithMaxFees.
Proof.
  destruct (londonToLegacy_spec Sample.londonWithMaxFees) as [Hlondon _].
  destruct (Hlondon eq_refl) as (Htype & HgasPrice & HmaxFee & HmaxPriority & Hother).
  destruct (londonToLegacy_spec Sample.legacyWithMaxFees) as [_ Hlegacy].
  split; [|apply Hlegacy; discriminate].
  split; [exact Htype|]. split; [exact HgasPrice|]. split; [exact HmaxFee|].
  split; [exact HmaxPriority|]. rewrite Hother; [reflexivity | discriminate..].
Defined.

(* ===================================================================== *)
(** * Type and fee fields of the outputs (C2) *)
(* ===================================================================== *)

(** C2, as stated, fails: [populate] leaves the fee fields of the other
    family where the request has them.  A request carrying [maxFeePerGas]
    and [maxPriorityFeePerGas], populated for a chain without EIP-1559, comes
    back with the legacy type 0x0 and both fields still set. *)
Lemma populate_keeps_foreign_fee_fields :
  typeCode (populate Sample.londonWithMaxFees Sample.frontier Sample.gasWithFees) = Some 0%Z /\
  populate Sample.londonWithMaxFees Sample.frontier Sample.gasWithFees !! "maxFeePerGas"
    = Some (VString "0x64") /\
  populate Sample.londonWithMaxFees Sample.frontier Sample.gasWithFees !! "maxPriorityFeePerGas"
    = Some (VString "0x5") /\
  typeConsistent (populate Sample.londonWithMaxFees Sample.frontier Sample.gasWithFees) = false.
Proof. repeat split. Qed.

(** C2, amended: [populate] adds no fee field of the family its output type
    excludes.  In the fee-market case its output (type 0x2) is consistent
    whenever the request carries no meaningful [gasPrice]; in the legacy case
    its output (type 0x0 or 0x1) is consistent whenever the request carries
    neither [maxFeePerGas] nor [maxPriorityFeePerGas].  [londonToLegacy]
    yields a consistent output from every input of type '0x2' and from every
    input that is consistent itself. *)
Theorem outputs_typeConsistent :
  (forall rawTx chainConfig gas,
     feeMarketActive chainConfig gas = true ->
     truthy (get "gasPrice" rawTx) = false ->
     typeConsistent (populate rawTx chainConfig gas) = true) /\
  (forall rawTx chainConfig gas,
     feeMarketActive chainConfig gas = false ->
     hasField "maxFeePerGas" rawTx = false ->
     hasField "maxPriorityFeePerGas" rawTx = false ->
     typeConsistent (populate rawTx chainConfig gas) = true) /\
  (forall txData,
     get "type" txData = VString "0x2" \/ typeConsistent txData = true ->
     typeConsistent (londonToLegacy txData) = true).
Proof.
  split; [|split].
  - intros rawTx chainConfig gas Hcase HgasPrice.
    apply feeMarketActive_true in Hcase as [H1559 [gasFees Hfees]].
    rewrite (populate_london _ _ _ gasFees) by assumption.
    unfold typeConsistent, typeCode, get at 1. rewrite populateLondon_type.
    cbn [default]. change (parseInt (VString "0x2") 16) with (Some 2%Z). cbv iota.
    unfold get. rewrite populateLondon_untouched by discriminate.
    fold (get "gasPrice" rawTx). now rewrite HgasPrice.
  - intros rawTx chainConfig gas Hcase HmaxFee HmaxPriority.
    rewrite populate_legacy by assumption.
    unfold typeConsistent, typeCode, get, hasField.
    rewrite populateLegacy_type, !populateLegacy_untouched by discriminate.
    fold (hasField "maxFeePerGas" rawTx) (hasField "maxPriorityFeePerGas" rawTx).
    rewrite HmaxFee, HmaxPriority.
    now destruct (isActivatedEIP chainConfig 2930).
  - intros txData [Htype | Hconsistent].
    + unfold londonToLegacy. rewrite Htype. cbn [strictEqString String.eqb Ascii.eqb Bool.eqb].
      unfold typeConsistent, typeCode, get, hasField. now simplify_map_eq.
    + unfold londonToLegacy.
      destruct (strictEqString (get "type" txData) "0x2") eqn:Htype; [|exact Hconsistent].
      destruct (get "type" txData) as [|b|s] eqn:E; try discriminate Htype.
      cbn [strictEqString] in Htype. apply String.eqb_eq in Htype as ->.
      unfold typeConsistent, typeCode, get, hasField. now simplify_map_eq.
Qed.

Lemma outputs_typeConsistent_witness :
  typeConsistent (populate Sample.bare Sample.london Sample.gasWithFees) = true /\
  typeConsistent (populate Sample.withGasPrice Sample.berlin Sample.gasWithFees) = true /\
  typeConsistent (londonToLegacy Sample.londonWithMaxFees) = true.
Proof.
  destruct outputs_typeConsistent as (Hlondon & Hlegacy & Hdowngrade).
  split; [|split].
  - apply (Hlondon Sample.bare Sample.london Sample.gasWithFees); reflexivity.
  - apply (Hlegacy Sample.withGasPrice Sample.berlin Sample.gasWithFees); reflexivity.
  - apply (Hdowngrade Sample.londonWithMaxFees). left. reflexivity.
Defined.

(* ===================================================================== *)
(** * populate on references: what is written, and where (C10) *)
(* ===================================================================== *)

Section StoreSteps.

Variable h : gmap positive (gmap string JSValue).
Variables (fresh_ rawTx : positive) (own rawOwn : gmap string JSValue).
Hypothesis fresh_ne : fresh_ <> rawTx.
Hypothesis rawTx_at : h !! rawTx = Some rawOwn.

Lemma setProp_new k v :
  OnStore.setProp fresh_ k v (<[fresh_ := own]> h) = (tt, <[fresh_ := <[k := v]> own]> h).
Proof.
  unfold OnStore.setProp, OnStore.objectAt.
  now rewrite lookup_insert_eq, insert_insert_eq.
Qed.

Lemma getProp_new k :
  OnStore.getProp fresh_ k (<[fresh_ := own]> h) = (get k own, <[fresh_ := own]> h).
Proof. unfold OnStore.getProp, OnStore.objectAt. now rewrite lookup_insert_eq. Qed.

Lemma getProp_raw k :
  OnStore.getProp rawTx k (<[fresh_ := own]> h) = (get k rawOwn, <[fresh_ := own]> h).
Proof.
  unfold OnStore.getProp, OnStore.objectAt.
  now rewrite lookup_insert_ne, rawTx_at by exact fresh_ne.
Qed.

End StoreSteps.

Lemma fresh_location (h : gmap positive (gmap string JSValue)) : h !! fresh (dom h) = None.
Proof. apply not_elem_of_dom. apply is_fresh. Qed.

(** The function on references allocates one object, writes to it alone, and
    what it holds at the end is the value [populate] computes. *)
Lemma OnStore_populate (h : gmap positive (gmap string JSValue)) rawTx rawOwn chainConfig gas :
  h !! rawTx = Some rawOwn ->
  OnStore.populate rawTx chainConfig gas h =
    (fresh (dom h), <[fresh (dom h) := populate rawOwn chainConfig gas]> h).
Proof.
  intros Hraw. pose proof (fresh_location h) as Hfresh.
  assert (Hne : fresh (dom h) <> rawTx) by congruence.
  unfold OnStore.populate, populate.
  unfold OnStore.bind at 1. unfold OnStore.spread, OnStore.objectAt. rewrite Hraw. cbn [default].
  set (o := fresh (dom h)) in *.
  assert (Hlegacy :
    (OnStore.bind
      (OnStore.setProp o "type"
         (VString (intToHex (if isActivatedEIP chainConfig 2930 then 1%N else 0%N))))
      (fun _ => OnStore.bind (OnStore.getProp rawTx "gasPrice") (fun rawGasPrice =>
         OnStore.bind
           (if useFrameValue rawGasPrice
            then OnStore.bind
                   (OnStore.setProp o "gasPrice"
                      (VString (addHexPrefix (BigNumberJs.toString
                         (BigNumberJs.BigNumber (fast (levels (price gas)))) 16))))
                   (fun _ => OnStore.setProp o "gasFeesSource" GasFeesSource.Frame)
            else OnStore.ret tt)
           (fun _ => OnStore.ret o)))) (<[o := rawOwn]> h)
    = (o, <[o := populateLegacy rawOwn chainConfig gas]> h)).
  { unfold OnStore.bind, OnStore.ret, populateLegacy.
    rewrite setProp_new, (getProp_raw _ _ _ _ rawOwn Hne Hraw).
    destruct (useFrameValue (get "gasPrice" rawOwn)); [|reflexivity].
    now rewrite !setProp_new. }
  destruct (fees (price gas)) as [gasFees|]; [|exact Hlegacy].
  destruct (isActivatedEIP chainConfig 1559); cbn [negb]; [|exact Hlegacy].
  clear Hlegacy. unfold OnStore.bind, OnStore.ret, populateLondon.
  rewrite setProp_new, !(getProp_raw _ _ _ _ rawOwn Hne Hraw).
  destruct (negb (useFrameValue (get "maxFeePerGas" rawOwn)) &&
            negb (useFrameValue (get "maxPriorityFeePerGas" rawOwn))); [reflexivity|].
  destruct (useFrameValue (get "maxFeePerGas" rawOwn) &&
            useFrameValue (get "maxPriorityFeePerGas" rawOwn)).
  - now rewrite setProp_new, getProp_new, setProp_new, getProp_new, setProp_new.
  - now rewrite getProp_new, setProp_new, getProp_new, setProp_new.
Qed.

Lemma populate_untouched rawTx chainConfig gas k :
  k ∉ feeKeys -> populate rawTx chainConfig gas !! k = rawTx !! k.
Proof.
  intros Hk. unfold feeKeys in Hk. rewrite !not_elem_of_cons in Hk.
  destruct Hk as (? & ? & ? & ? & ? & _).
  unfold populate. destruct (fees (price gas)); [destruct (negb _)|];
    first [now apply populateLegacy_untouched | now apply populateLondon_untouched].
Qed.

(** C10: the output of [populate] agrees with the request on every field
    other than [type], [gasPrice], [maxFeePerGas], [maxPriorityFeePerGas] and
    [gasFeesSource], in particular on [chainId], [nonce], [to], [value],
    [data] and [gasLimit]; and the output is a new object: its location was
    free before the call, the request holds afterwards what it held before,
    and so does every other object of the store. *)
Theorem populate_frame (h : gmap positive (gmap string JSValue)) rawTx rawOwn chainConfig gas :
  h !! rawTx = Some rawOwn ->
  let '(txData, h') := OnStore.populate rawTx chainConfig gas h in
  h !! txData = None /\
  h' !! rawTx = Some rawOwn /\
  (forall o, o <> txData -> h' !! o = h !! o) /\
  exists output,
    h' !! txData = Some output /\
    output = populate rawOwn chainConfig gas /\
    (forall k, k ∉ feeKeys -> output !! k = rawOwn !! k) /\
    Forall (fun k => output !! k = rawOwn !! k)
      ["chainId"; "nonce"; "to"; "value"; "data"; "gasLimit"].
Proof.
  intros Hraw. rewrite (OnStore_populate h rawTx rawOwn) by exact Hraw.
  pose proof (fresh_location h) as Hfresh.
  split; [exact Hfresh|]. split; [|split].
  - rewrite lookup_insert_ne by congruence. exact Hraw.
  - intros o Ho. now rewrite lookup_insert_ne.
  - exists (populate rawOwn chainConfig gas).
    split; [apply lookup_insert_eq|]. split; [reflexivity|]. split.
    + intros k Hk. now apply populate_untouched.
    + repeat constructor; apply populate_untouched; unfold feeKeys;
        rewrite !not_elem_of_cons; repeat split; (discriminate || apply not_elem_of_nil).
Qed.

Lemma populate_frame_witness :
  let '(txData, h') :=
    OnStore.populate 1%positive Sample.london Sample.gasWithFees Sample.requestStore in
  Sample.requestStore !! txData = None /\
  h' !! 1%positive = Some Sample.bare /\
  (forall o, o <> txData -> h' !! o = Sample.requestStore !! o) /\
  exists output,
    h' !! txData = Some output /\
    output = populate Sample.bare Sample.london Sample.gasWithFees /\
    (forall k, k ∉ feeKeys -> output !! k = Sample.bare !! k) /\
    Forall (fun k => output !! k = Sample.bare !! k)
      ["chainId"; "nonce"; "to"; "value"; "data"; "gasLimit"].
Proof.
  apply (populate_frame Sample.requestStore 1%positive Sample.bare Sample.london
           Sample.gasWithFees).
  reflexivity.
Defined.

(** On references, [londonToLegacy] returns a new object for a transaction of
    type '0x2' and its own argument, with nothing written, for any other. *)
Lemma OnStore_londonToLegacy (h : gmap positive (gmap string JSValue)) txData own :
  h !! txData = Some own ->
  OnStore.londonToLegacy txData h =
    if strictEqString (get "type" own) "0x2"
    then (fresh (dom h), <[fresh (dom h) := londonToLegacy own]> h)
    else (txData, h).
Proof.
  intros Hown.
  unfold OnStore.londonToLegacy, OnStore.bind, OnStore.getProp, OnStore.newObject,
    OnStore.ret, OnStore.objectAt, londonToLegacy.
  rewrite Hown. cbn [default from_option id].
  destruct (strictEqString (get "type" own) "0x2"); [|reflexivity].
  now rewrite Hown.
Qed.


(* ===================================================================== *)
(** * signerCompatibility (C7) *)
(* ===================================================================== *)

Section Compatibility.

Variable typeSupportsBaseFee : JSValue -> bool.

Local Open Scope Z_scope.

(** A transaction whose type does not support a base fee is 'legacy' and
    compatible with every signer. *)
Lemma signerCompatibility_legacy txData signer :
  typeSupportsBaseFee (get "type" txData) = false ->
  signerCompatibility typeSupportsBaseFee txData signer =
    Return {| signer := type signer; tx := "legacy"; compatible := CBool true |}.
Proof. intros H. unfold signerCompatibility. now rewrite H. Qed.

(** The indexed call on a key that [Object.prototype] does not have: the
    predicate of the table when the key is one of its five, [false]
    otherwise. *)
Lemma lookupAndCall_table key version model :
  ObjectPrototype key version model = None ->
  exists b : bool,
    lookupAndCall key version model = Return (CBool b) /\
    (key = "seed" \/ key = "ring" -> b = true) /\
    (key = "ledger" ->
       b = true <-> major version >= 2 \/ (major version >= 1 /\ minor version >= 9)) /\
    (key = "trezor" -> toLowerCase (default "" model) = "trezor one" ->
       b = true <->
       major version >= 2 \/
       (major version >= 1 /\
        (minor version > 10 \/ (minor version = 10 /\ patch version >= 4)))) /\
    (key = "trezor" -> toLowerCase (default "" model) <> "trezor one" ->
       b = true <->
       major version >= 3 \/ (major version = 2 /\ minor version >= 5) \/
       (major version = 2 /\ minor version = 4 /\ patch version >= 2)) /\
    (key = "lattice" ->
       b = true <-> major version >= 1 \/ minor version >= 11) /\
    (key ∉ ["seed"; "ring"; "ledger"; "trezor"; "lattice"] -> b = false).
Proof.
  intros Hown. unfold lookupAndCall. rewrite Hown.
  unfold londonHardforkSigners.
  destruct (String.eqb_spec key "seed") as [->|Hseed].
  { eexists; split; [reflexivity|].
    repeat split; try discriminate; try reflexivity; intros; try discriminate.
    exfalso. set_solver. }
  destruct (String.eqb_spec key "ring") as [->|Hring].
  { eexists; split; [reflexivity|].
    repeat split; try discriminate; try reflexivity; intros; try discriminate.
    exfalso. set_solver. }
  destruct (String.eqb_spec key "ledger") as [->|Hledger].
  { eexists; split; [reflexivity|].
    split; [intros [|]; discriminate|]. split; [intros _; lia|].
    repeat split; try discriminate. intros; exfalso; set_solver. }
  destruct (String.eqb_spec key "trezor") as [->|Htrezor].
  { destruct (String.eqb_spec (toLowerCase (default "" model)) "trezor one") as [Hone|Hone].
    - eexists; split; [reflexivity|].
      split; [intros [|]; discriminate|]. split; [discriminate|].
      split; [intros _ _; lia|]. split; [intros _ Hc; contradiction|].
      split; [discriminate|]. intros; exfalso; set_solver.
    - eexists; split; [reflexivity|].
      split; [intros [|]; discriminate|]. split; [discriminate|].
      split; [intros _ Hc; contradiction|]. split; [intros _ _; lia|].
      split; [discriminate|]. intros; exfalso; set_solver. }
  destruct (String.eqb_spec key "lattice") as [->|Hlattice].
  { eexists; split; [reflexivity|].
    split; [intros [|]; discriminate|]. split; [discriminate|].
    split; [discriminate|]. split; [discriminate|].
    split; [intros _; lia|]. intros; exfalso; set_solver. }
  exists false. split; [reflexivity|].
  split; [intros [|]; contradiction|]. repeat split; try contradiction; reflexivity.
Qed.

(** No signer kind is the name of a member of [Object.prototype]. *)
Lemma isSignerKind_own key version model :
  isSignerKind key = true -> ObjectPrototype key version model = None.
Proof.
  unfold isSignerKind, objectPrototypeMembers. intros Hkind.
  apply negb_true_iff, bool_decide_eq_false in Hkind.
  unfold ObjectPrototype.
  repeat match goal with
  | |- context [String.eqb key ?name] =>
      destruct (String.eqb_spec key name) as [->|?]; [exfalso; apply Hkind; set_solver|]
  end.
  reflexivity.
Qed.

(** X16: For a transaction whose type supports a base fee and a signer type that
    is not a member of [Object.prototype], the result is 'london' with a
    boolean that follows the version matrix; a type outside the table is
    incompatible. *)
Lemma signerCompatibility_matrix txData signer :
  typeSupportsBaseFee (get "type" txData) = true ->
  ObjectPrototype (type signer) (appVersion signer) (model signer) = None ->
  exists b : bool,
    signerCompatibility typeSupportsBaseFee txData signer =
      Return {| signer := type signer; tx := "london"; compatible := CBool b |} /\
    let version := appVersion signer in
    (type signer = "seed" \/ type signer = "ring" -> b = true) /\
    (type signer = "ledger" ->
       b = true <-> major version >= 2 \/ (major version >= 1 /\ minor version >= 9)) /\
    (type signer = "trezor" -> toLowerCase (default "" (model signer)) = "trezor one" ->
       b = true <->
       major version >= 2 \/
       (major version >= 1 /\
        (minor version > 10 \/ (minor version = 10 /\ patch version >= 4)))) /\
    (type signer = "trezor" -> toLowerCase (default "" (model signer)) <> "trezor one" ->
       b = true <->
       major version >= 3 \/ (major version = 2 /\ minor version >= 5) \/
       (major version = 2 /\ minor version = 4 /\ patch version >= 2)) /\
    (type signer = "lattice" ->
       b = true <-> major version >= 1 \/ minor version >= 11) /\
    (type signer ∉ ["seed"; "ring"; "ledger"; "trezor"; "lattice"] -> b = false).
Proof.
  intros Hfee Hown. unfold signerCompatibility. rewrite Hfee.
  destruct (lookupAndCall_table _ _ _ Hown) as (b & -> & Hmatrix).
  exists b. split; [reflexivity | exact Hmatrix].
Qed.

(** C7: For a signer whose type is a signer kind.  When the type of the
    transaction supports a base fee, the result is 'london' and [compatible]
    is the boolean of the version matrix: true for seed and ring; for ledger
    true iff major >= 2 or (major >= 1 and minor >= 9); for a trezor whose
    model is 'trezor one' in any case, true iff major >= 2 or (major >= 1 and
    (minor > 10 or (minor = 10 and patch >= 4))), for any other trezor true
    iff major >= 3 or (major = 2 and minor >= 5) or (major = 2, minor = 4 and
    patch >= 2); for lattice true iff major >= 1 or minor >= 11; false for a
    kind that is not in the table.  When the type of the transaction does
    not support a base fee, the result is 'legacy' and [compatible] is
    true. *)
Theorem signerCompatibility_of_signer_kinds txData signer :
  isSignerKind (type signer) = true ->
  (typeSupportsBaseFee (get "type" txData) = true ->
   exists b : bool,
     signerCompatibility typeSupportsBaseFee txData signer =
       Return {| signer := type signer; tx := "london"; compatible := CBool b |} /\
     let version := appVersion signer in
     (type signer = "seed" \/ type signer = "ring" -> b = true) /\
     (type signer = "ledger" ->
        b = true <-> major version >= 2 \/ (major version >= 1 /\ minor version >= 9)) /\
     (type signer = "trezor" -> toLowerCase (default "" (model signer)) = "trezor one" ->
        b = true <->
        major version >= 2 \/
        (major version >= 1 /\
         (minor version > 10 \/ (minor version = 10 /\ patch version >= 4)))) /\
     (type signer = "trezor" -> toLowerCase (default "" (model signer)) <> "trezor one" ->
        b = true <->
        major version >= 3 \/ (major version = 2 /\ minor version >= 5) \/
        (major version = 2 /\ minor version = 4 /\ patch version >= 2)) /\
     (type signer = "lattice" ->
        b = true <-> major version >= 1 \/ minor version >= 11) /\
     (type signer ∉ ["seed"; "ring"; "ledger"; "trezor"; "lattice"] -> b = false)) /\
  (typeSupportsBaseFee (get "type" txData) = false ->
   signerCompatibility typeSupportsBaseFee txData signer =
     Return {| signer := type signer; tx := "legacy"; compatible := CBool true |}).
Proof.
  intros Hkind. split.
  - intros Hfee. unfold signerCompatibility. rewrite Hfee.
    destruct (lookupAndCall_table _ _ _
                (isSignerKind_own _ (appVersion signer) (model signer) Hkind))
      as (b & -> & Hmatrix).
    exists b. split; [reflexivity | exact Hmatrix].
  - apply signerCompatibility_legacy.
Qed.

End Compatibility.

Lemma signerCompatibility_of_signer_kinds_witness :
  (exists b : bool,
     signerCompatibility typeSupportsBaseFee_spec Sample.londonWithMaxFees (Fixture.ledger 1 9 0) =
       Return {| signer := "ledger"; tx := "london"; compatible := CBool b |} /\
     b = true) /\
  signerCompatibility typeSupportsBaseFee_spec Sample.legacyWithMaxFees (Fixture.ledger 1 9 0) =
    Return {| signer := "ledger"; tx := "legacy"; compatible := CBool true |}.
Proof.
  destruct (signerCompatibility_of_signer_kinds typeSupportsBaseFee_spec
              Sample.londonWithMaxFees (Fixture.ledger 1 9 0) eq_refl)
    as [Hlondon _].
  destruct (signerCompatibility_of_signer_kinds typeSupportsBaseFee_spec
              Sample.legacyWithMaxFees (Fixture.ledger 1 9 0) eq_refl)
    as [_ Hlegacy].
  destruct (Hlondon eq_refl) as (b & Hresult & _ & Hledger & _).
  split; [|exact (Hlegacy eq_refl)].
  exists b. split; [exact Hresult|].
  apply (Hledger eq_refl). right. cbn. lia.
Defined.

(** The version gates on the boundary releases. *)
Example ledger_1_8_0_incompatible :
  signerCompatibility typeSupportsBaseFee_spec Sample.londonWithMaxFees
    {| type := "ledger"; appVersion := {| major := 1; minor := 8; patch := 0 |}; model := None |}
  = Return {| signer := "ledger"; tx := "london"; compatible := CBool false |}.
Proof. reflexivity. Qed.

Example ledger_2_0_0_compatible :
  signerCompatibility typeSupportsBaseFee_spec Sample.londonWithMaxFees
    {| type := "ledger"; appVersion := {| major := 2; minor := 0; patch := 0 |}; model := None |}
  = Return {| signer := "ledger"; tx := "london"; compatible := CBool true |}.
Proof. reflexivity. Qed.

Example trezor_one_1_10_4_compatible :
  signerCompatibility typeSupportsBaseFee_spec Sample.londonWithMaxFees
    {| type := "trezor"; appVersion := {| major := 1; minor := 10; patch := 4 |};
       model := Some "Trezor One" |}
  = Return {| signer := "trezor"; tx := "london"; compatible := CBool true |}.
Proof. reflexivity. Qed.

Example trezor_t_2_4_1_incompatible :
  signerCompatibility typeSupportsBaseFee_spec Sample.londonWithMaxFees
    {| type := "trezor"; appVersion := {| major := 2; minor := 4; patch := 1 |};
       model := Some "Trezor T" |}
  = Return {| signer := "trezor"; tx := "london"; compatible := CBool false |}.
Proof. reflexivity. Qed.

Example unlisted_signer_incompatible :
  signerCompatibility typeSupportsBaseFee_spec Sample.londonWithMaxFees
    {| type := "keystone"; appVersion := {| major := 9; minor := 9; patch := 9 |}; model := None |}
  = Return {| signer := "keystone"; tx := "london"; compatible := CBool false |}.
Proof. reflexivity. Qed.

Example legacy_always_compatible :
  signerCompatibility typeSupportsBaseFee_spec Sample.legacyWithMaxFees Sample.unknownSigner
  = Return {| signer := "toString"; tx := "legacy"; compatible := CBool true |}.
Proof. reflexivity. Qed.

(** Outside the signer kinds: a type that names a member of
    [Object.prototype] passes the [in] test although the table has no such
    key, and [compatible] is what the inherited member returns, here the
    string ['[object Object]'] of [toString]. *)
Example signerCompatibility_inherited_key :
  londonHardforkSigners "toString" = None /\
  typeSupportsBaseFee_spec (get "type" Sample.londonWithMaxFees) = true /\
  signerCompatibility typeSupportsBaseFee_spec Sample.londonWithMaxFees Sample.unknownSigner =
    Return {| signer := "toString"; tx := "london"; compatible := CString "[object Object]" |}.
Proof. repeat split. Qed.

(* ===================================================================== *)
(** * classifyTransaction (C8) *)
(* ===================================================================== *)

Example classifyTransaction_empty_to :
  classifyTransaction isNonZeroHex_spec
    {| payload := {| params := [{| to := Some ""; data := Some "0xabcd" |}] |};
       recipientType := Some "external" |}
  = Return CONTRACT_DEPLOY.
Proof. reflexivity. Qed.

Example classifyTransaction_no_params :
  classifyTransaction isNonZeroHex_spec
    {| payload := {| params := [] |}; recipientType := None |}
  = Throw "TypeError".
Proof. reflexivity. Qed.

(** C8: for a request with a first parameter, the classification is
    CONTRACT_DEPLOY when no [to] address is present; otherwise SEND_DATA when
    [recipientType] is 'external' and [data] is longer than the empty marker
    '0x'; otherwise CONTRACT_CALL when [data] is non-zero hex and
    [recipientType] is not 'external'; otherwise NATIVE_TRANSFER. *)
Theorem classifyTransaction_precedence (isNonZeroHex : string -> bool)
    request param0 rest :
  params (payload request) = param0 :: rest ->
  let hasTo := truthy (ofOption (to param0)) = true in
  let data := default "0x" (data param0) in
  let external := recipientType request = Some "external" in
  let sendData := external /\ (2 < String.length data)%nat in
  let contractCall := isNonZeroHex data = true /\ ~ external in
  (~ hasTo -> classifyTransaction isNonZeroHex request = Return CONTRACT_DEPLOY) /\
  (hasTo -> sendData -> classifyTransaction isNonZeroHex request = Return SEND_DATA) /\
  (hasTo -> ~ sendData -> contractCall ->
     classifyTransaction isNonZeroHex request = Return CONTRACT_CALL) /\
  (hasTo -> ~ sendData -> ~ contractCall ->
     classifyTransaction isNonZeroHex request = Return NATIVE_TRANSFER).
Proof.
  intros Hparams. cbv zeta. unfold classifyTransaction. rewrite Hparams.
  assert (Hext : strictEqString (ofOption (recipientType request)) "external" = true <->
                 recipientType request = Some "external").
  { destruct (recipientType request) as [s|]; cbn [ofOption strictEqString].
    - rewrite String.eqb_eq. split; congruence.
    - split; discriminate. }
  destruct (truthy (ofOption (to param0))); cbn [negb].
  - destruct (strictEqString _ "external") eqn:E.
    + assert (He : recipientType request = Some "external") by now apply Hext.
      destruct (Nat.ltb_spec 2 (String.length (default "0x" (data param0)))) as [Hlen|Hlen];
        cbn [andb negb].
      * split; [intros Hc; now contradiction Hc|]. split; [reflexivity|].
        split; intros _ Hc; contradiction Hc; now split.
      * rewrite andb_false_r.
        split; [intros Hc; now contradiction Hc|].
        split; [intros _ [_ Hc]; lia|].
        split; [intros _ _ [_ Hc]; contradiction|]. reflexivity.
    + assert (He : recipientType request <> Some "external").
      { intros He. apply Hext in He. congruence. }
      cbn [andb negb]. rewrite andb_true_r.
      split; [intros Hc; now contradiction Hc|].
      split; [intros _ [Hc _]; contradiction|].
      destruct (isNonZeroHex _) eqn:Hnz.
      * split; [reflexivity|]. intros _ _ Hc. contradiction Hc. now split.
      * split; [intros _ _ [Hc _]; discriminate Hc | reflexivity].
  - split; [reflexivity|]. repeat split; intros Hc; discriminate Hc.
Qed.

Lemma classifyTransaction_precedence_witness :
  classifyTransaction isNonZeroHex_spec Sample.deployRequest = Return CONTRACT_DEPLOY /\
  classifyTransaction isNonZeroHex_spec Sample.sendDataRequest = Return SEND_DATA /\
  classifyTransaction isNonZeroHex_spec Sample.contractCallRequest = Return CONTRACT_CALL /\
  classifyTransaction isNonZeroHex_spec Sample.transferRequest = Return NATIVE_TRANSFER.
Proof.
  split; [|split; [|split]].
  - apply (classifyTransaction_precedence isNonZeroHex_spec Sample.deployRequest
             Sample.deployParams [] eq_refl).
    discriminate.
  - apply (classifyTransaction_precedence isNonZeroHex_spec Sample.sendDataRequest
             Sample.callParams [] eq_refl);
      [reflexivity | split; [reflexivity | cbn; lia]].
  - apply (classifyTransaction_precedence isNonZeroHex_spec Sample.contractCallRequest
             Sample.callParams [] eq_refl);
      [reflexivity | intros [Hc _]; discriminate Hc | split; [reflexivity | discriminate]].
  - apply (classifyTransaction_precedence isNonZeroHex_spec Sample.transferRequest
             Sample.emptyDataParams [] eq_refl);
      [reflexivity | intros [Hc _]; discriminate Hc | intros [Hc _]; discriminate Hc].
Defined.

(* ===================================================================== *)
(** * Literals read by both parsers *)
(* ===================================================================== *)

(** A digit of the alphabet is no white space, no sign and no upper-case
    letter, and [parseInt] gives it the same value. *)
Lemma alphabetIndex_char c d :
  alphabetIndex c = Some d ->
  isWhiteSpace c = false /\ c <> "-"%char /\ c <> "+"%char /\ c <> "X"%char /\
  digitValue c = Some d.
Proof.
  destruct c as [[] [] [] [] [] [] [] []]; vm_compute; intros H;
    first [discriminate H | repeat split; (discriminate || assumption)].
Qed.

Lemma alphabetIndex_x d : alphabetIndex "x" = Some d -> d = 33%N.
Proof. vm_compute. congruence. Qed.

Lemma readSign_unsigned c rest :
  c <> "-"%char -> c <> "+"%char -> readSign (String c rest) = (false, String c rest).
Proof.
  intros Hminus Hplus.
  destruct c as [[] [] [] [] [] [] [] []]; first [reflexivity | congruence].
Qed.

Lemma stripHexPrefix0x_other c rest :
  c <> "0"%char -> stripHexPrefix0x (String c rest) = None.
Proof.
  intros Hzero. destruct c as [[] [] [] [] [] [] [] []]; first [reflexivity | congruence].
Qed.

Lemma stripHexPrefix0x_zero c rest :
  c <> "x"%char -> c <> "X"%char -> stripHexPrefix0x (String "0" (String c rest)) = None.
Proof.
  intros Hx HX. destruct c as [[] [] [] [] [] [] [] []]; first [reflexivity | congruence].
Qed.

Lemma readDigitPrefix_counts radix str acc count :
  snd (readDigitPrefix radix str acc (S count)) <> O.
Proof.
  revert acc count. induction str as [|c str IH]; intros acc count; cbn [readDigitPrefix].
  - discriminate.
  - destruct (isRadixDigit radix c); [apply IH | discriminate].
Qed.

(** [parseInt] reads a number from a string that starts, after an optional
    [0x], with a hexadecimal digit. *)
Lemma parseInt_digit_first c rest d :
  alphabetIndex c = Some d -> (d < 16)%N ->
  default (String c rest) (stripHexPrefix0x (String c rest)) = String c rest ->
  isNaN (parseInt (VString (String c rest)) 16) = false.
Proof.
  intros Hc Hd Hstrip.
  destruct (alphabetIndex_char c d Hc) as (Hws & Hminus & Hplus & _ & Hvalue).
  unfold parseInt. cbn [ToString trimStart]. rewrite Hws.
  rewrite readSign_unsigned by assumption.
  change ((16 <? 2)%N || (36 <? 16)%N) with false. change (16 =? 16)%N with true. cbv iota.
  rewrite Hstrip. cbn [readDigitPrefix]. unfold isRadixDigit at 1. rewrite Hvalue.
  replace (d <? 16)%N with true by (symmetry; now apply N.ltb_lt).
  pose proof (readDigitPrefix_counts 16 rest (0 * 16 + default 0%N (Some d)) 0) as Hcount.
  destruct (readDigitPrefix 16 rest _ 1) as [n count]. cbn [snd] in Hcount.
  destruct count; [contradiction | reflexivity].
Qed.

Lemma readDigits_first radix c rest acc n :
  readDigits radix (String c rest) acc = Some n ->
  exists d, alphabetIndex c = Some d /\ (d < radix)%N /\
            readDigits radix rest (acc * radix + d) = Some n.
Proof.
  cbn [readDigits]. destruct (alphabetIndex c) as [d|]; [|discriminate].
  destruct (N.ltb_spec d radix) as [Hlt|Hge]; [|discriminate]. intros Hrest. now exists d.
Qed.

Lemma stripHexPrefix0x_Some str digits :
  stripHexPrefix0x str = Some digits ->
  str = String "0" (String "x" digits) \/ str = String "0" (String "X" digits).
Proof.
  destruct str as [|c rest]; [discriminate|].
  destruct (Ascii.eqb_spec c "0") as [->|Hzero];
    [|rewrite stripHexPrefix0x_other by assumption; discriminate].
  destruct rest as [|c' rest']; [discriminate|].
  destruct (Ascii.eqb_spec c' "x") as [->|Hx]; [intros [= ->]; now left|].
  destruct (Ascii.eqb_spec c' "X") as [->|HX]; [intros [= ->]; now right|].
  rewrite stripHexPrefix0x_zero by assumption. discriminate.
Qed.

(** The two kinds of literal. *)
Lemma readLiteral_cases str n :
  BigNumberJs.readLiteral str = Some n ->
  (exists c rest, stripHexPrefix0x str = Some (String c rest) /\
                  BigNumberJs.readHexDigits (String c rest) = Some n) \/
  (exists c rest, str = String c rest /\ stripHexPrefix0x str = None /\
                  readDigits 10 str 0 = Some n).
Proof.
  unfold BigNumberJs.readLiteral. destruct (stripHexPrefix0x str) as [digits|] eqn:E.
  - destruct digits as [|c rest]; [discriminate|]. intros Hdigits. left. now exists c, rest.
  - destruct str as [|c rest]; [discriminate|]. intros Hdigits. right. now exists c, rest.
Qed.

(** Upper-case digits have the value of their lower-case form. *)
Lemma lowerChar_digitValue c d : alphabetIndex (lowerChar c) = Some d -> digitValue c = Some d.
Proof.
  destruct c as [[] [] [] [] [] [] [] []]; vm_compute; intros H;
    first [discriminate H | exact H].
Qed.

(** The first digit of a hexadecimal literal is a digit for [parseInt]. *)
Lemma readHexDigits_first c rest n :
  BigNumberJs.readHexDigits (String c rest) = Some n ->
  exists d, digitValue c = Some d /\ (d < 16)%N.
Proof.
  unfold BigNumberJs.readHexDigits.
  destruct (readDigits 16 (String c rest) 0) as [m|] eqn:Hlower.
  - intros _. apply readDigits_first in Hlower as (d & Hc & Hd & _).
    exists d. split; [|exact Hd]. now destruct (alphabetIndex_char c d Hc) as (_ & _ & _ & _ & ?).
  - destruct (BigNumberJs.isUpperCase (String c rest)); [|discriminate].
    cbn [toLowerCase]. intros Hupper. apply readDigits_first in Hupper as (d & Hc & Hd & _).
    exists d. split; [now apply lowerChar_digitValue | exact Hd].
Qed.

Lemma parseInt_reads str c rest d :
  trimStart str = str -> readSign str = (false, str) ->
  default str (stripHexPrefix0x str) = String c rest ->
  digitValue c = Some d -> (d < 16)%N ->
  isNaN (parseInt (VString str) 16) = false.
Proof.
  intros Htrim Hsign Hstrip Hvalue Hd.
  unfold parseInt. cbn [ToString]. rewrite Htrim, Hsign.
  change ((16 <? 2)%N || (36 <? 16)%N) with false. change (16 =? 16)%N with true. cbv iota.
  rewrite Hstrip. cbn [readDigitPrefix]. unfold isRadixDigit at 1. rewrite Hvalue.
  replace (d <? 16)%N with true by (symmetry; now apply N.ltb_lt).
  pose proof (readDigitPrefix_counts 16 rest (0 * 16 + default 0%N (Some d)) 0) as Hcount.
  destruct (readDigitPrefix 16 rest _ 1) as [m count]. cbn [snd] in Hcount.
  destruct count; [contradiction | reflexivity].
Qed.

(** A literal is also valid hex for [populate]. *)
Lemma isQuantity_isValidHex value n : isQuantity value n -> isValidHex value = true.
Proof.
  intros (str & -> & H). cbn [isValidHex]. apply negb_true_iff.
  destruct (readLiteral_cases str n H)
    as [(c & rest & Hstrip & Hdigits) | (c & rest & -> & Hstrip & Hdigits)].
  - destruct (readHexDigits_first c rest n Hdigits) as (d & Hvalue & Hd).
    apply (parseInt_reads str c rest d); try assumption.
    + destruct (stripHexPrefix0x_Some _ _ Hstrip) as [-> | ->]; reflexivity.
    + destruct (stripHexPrefix0x_Some _ _ Hstrip) as [-> | ->]; reflexivity.
    + now rewrite Hstrip.
  - apply readDigits_first in Hdigits as (d & Hc & Hd & _).
    destruct (alphabetIndex_char c d Hc) as (Hws & Hminus & Hplus & _ & Hvalue).
    apply (parseInt_reads (String c rest) c rest d); try assumption.
    + cbn [trimStart]. now rewrite Hws.
    + now apply readSign_unsigned.
    + now rewrite Hstrip.
    + lia.
Qed.

Lemma isQuantity_hexEncode n : isQuantity (VString (hexEncode n)) n.
Proof. exists (hexEncode n). split; [reflexivity | apply readLiteral_hexEncode]. Qed.

Lemma isValidHex_hexEncode n : isValidHex (VString (hexEncode n)) = true.
Proof. apply (isQuantity_isValidHex _ n), isQuantity_hexEncode. Qed.

Lemma isQuantity_unique value n m : isQuantity value n -> isQuantity value m -> n = m.
Proof. intros (s1 & -> & H1) (s2 & E & H2). injection E as <-. congruence. Qed.

Lemma BigNumber_falsy value : truthy value = false -> BigNumberJs.BigNumber value = BigNumberJs.NaN.
Proof.
  destruct value as [|[]|[|c str]]; try discriminate; reflexivity.
Qed.

(* ===================================================================== *)
(** * populate: further properties *)
(* ===================================================================== *)

Lemma populate_type_lookup rawTx chainConfig gas :
  populate rawTx chainConfig gas !! "type" =
    Some (VString (if feeMarketActive chainConfig gas then "0x2"
                   else if isActivatedEIP chainConfig 2930 then "0x1" else "0x0")).
Proof.
  destruct (feeMarketActive chainConfig gas) eqn:Hcase.
  - apply feeMarketActive_true in Hcase as [H1559 [gasFees Hfees]].
    rewrite (populate_london _ _ _ gasFees) by assumption. apply populateLondon_type.
  - rewrite populate_legacy by assumption. apply populateLegacy_type.
Qed.

(** X1: The type of the output depends on the ruleset and the snapshot alone:
    0x2 in the fee-market case, else 0x1 with EIP-2930 and 0x0 without.
    Two requests populated in the same context get the same type, whatever
    types they carried. *)
Theorem populate_type_by_context rawTx rawTx' chainConfig gas :
  get "type" (populate rawTx chainConfig gas) =
    VString (if feeMarketActive chainConfig gas then "0x2"
             else if isActivatedEIP chainConfig 2930 then "0x1" else "0x0") /\
  get "type" (populate rawTx chainConfig gas) = get "type" (populate rawTx' chainConfig gas).
Proof.
  unfold get. rewrite !populate_type_lookup. split; reflexivity.
Qed.

(** X2: In the legacy case [populate] is idempotent for every request and every
    snapshot, whatever the "fast" level holds: the second call keeps a valid
    price and recomputes an invalid one to the same string. *)
Theorem populate_legacy_idempotent rawTx chainConfig gas :
  feeMarketActive chainConfig gas = false ->
  populate (populate rawTx chainConfig gas) chainConfig gas = populate rawTx chainConfig gas.
Proof.
  intros Hcase. rewrite !(populate_legacy _ _ _ Hcase).
  unfold populateLegacy at 1.
  destruct (useFrameValue (get "gasPrice" (populateLegacy rawTx chainConfig gas))) eqn:Hagain.
  - unfold populateLegacy in *.
    destruct (useFrameValue (get "gasPrice" rawTx)) eqn:Hfirst.
    + apply map_eq. intros k.
      destruct (decide (k = "gasFeesSource")) as [->|]; [now simplify_map_eq|].
      destruct (decide (k = "gasPrice")) as [->|]; [now simplify_map_eq|].
      destruct (decide (k = "type")) as [->|]; now simplify_map_eq.
    + unfold get in Hagain. rewrite lookup_insert_ne in Hagain by discriminate.
      fold (get "gasPrice" rawTx) in Hagain. congruence.
  - apply insert_id. rewrite populateLegacy_type.
    now destruct (isActivatedEIP chainConfig 2930).
Qed.

Lemma populate_legacy_idempotent_witness :
  populate (populate Sample.bare Sample.berlin Fixture.gasWithoutFast)
           Sample.berlin Fixture.gasWithoutFast
  = populate Sample.bare Sample.berlin Fixture.gasWithoutFast.
Proof.
  apply (populate_legacy_idempotent Sample.bare Sample.berlin Fixture.gasWithoutFast).
  reflexivity.
Defined.

(** X3: A missing [gasPrice] with no "fast" level in the snapshot is filled with
    the string 0xNaN, marked as supplied by Frame. *)
Theorem populate_legacy_without_fast rawTx chainConfig gas :
  feeMarketActive chainConfig gas = false ->
  isMissing (get "gasPrice" rawTx) = true ->
  truthy (fast (levels (price gas))) = false ->
  get "gasPrice" (populate rawTx chainConfig gas) = VString "0xNaN" /\
  get "gasFeesSource" (populate rawTx chainConfig gas) = GasFeesSource.Frame /\
  isValidHex (get "gasPrice" (populate rawTx chainConfig gas)) = false.
Proof.
  intros Hcase Hmissing Hfast. rewrite populate_legacy by assumption. unfold populateLegacy.
  rewrite (isMissing_useFrameValue _ Hmissing), (BigNumber_falsy _ Hfast).
  unfold get. simplify_map_eq. repeat split.
Qed.

Lemma populate_legacy_without_fast_witness :
  get "gasPrice" (populate Sample.bare Sample.berlin Fixture.gasWithoutFast) = VString "0xNaN" /\
  get "gasFeesSource" (populate Sample.bare Sample.berlin Fixture.gasWithoutFast)
    = GasFeesSource.Frame /\
  isValidHex (get "gasPrice" (populate Sample.bare Sample.berlin Fixture.gasWithoutFast)) = false.
Proof.
  apply (populate_legacy_without_fast Sample.bare Sample.berlin Fixture.gasWithoutFast);
    reflexivity.
Defined.

Section FeeMarket.

Variables (rawTx : TransactionData) (chainConfig : Common) (gas : Gas) (gasFees : GasFees).
Hypothesis eip1559 : isActivatedEIP chainConfig 1559 = true.
Hypothesis estimate : fees (price gas) = Some gasFees.

(** X4: When the dapp supplies [maxFeePerGas] alone, it is kept, the priority
    fee comes from the snapshot and [gasFeesSource] is left as it was. *)
Theorem populate_keeps_supplied_maxFeePerGas priorityFee :
  isValidHex (get "maxFeePerGas" rawTx) = true ->
  isMissing (get "maxPriorityFeePerGas" rawTx) = true ->
  isQuantity (maxPriorityFeePerGas gasFees) priorityFee ->
  get "maxFeePerGas" (populate rawTx chainConfig gas) = get "maxFeePerGas" rawTx /\
  get "maxPriorityFeePerGas" (populate rawTx chainConfig gas) = VString (hexEncode priorityFee) /\
  populate rawTx chainConfig gas !! "gasFeesSource" = rawTx !! "gasFeesSource".
Proof.
  intros HmaxFee HmaxPriority Hpriority.
  rewrite (populate_london _ _ _ gasFees) by assumption. unfold populateLondon.
  rewrite (isValidHex_useFrameValue _ HmaxFee), (isMissing_useFrameValue _ HmaxPriority).
  rewrite (isQuantity_truthy _ _ Hpriority). cbn [negb andb].
  rewrite (isQuantity_BigNumber _ _ Hpriority).
  cbn [BigNumberJs.toString]. rewrite addHexPrefix_toStringRadix.
  unfold get. now simplify_map_eq.
Qed.

(** X5: When the dapp supplies [maxPriorityFeePerGas] alone, as a literal of
    [priorityFee] ([isQuantity]: unsigned, hexadecimal with digits of one
    case or decimal), it is kept as written, [maxFeePerGas] is the encoding
    of [priorityFee + baseFee] and [gasFeesSource] is left as it was. *)
Theorem populate_keeps_supplied_maxPriorityFeePerGas baseFee priorityFee :
  isMissing (get "maxFeePerGas" rawTx) = true ->
  isQuantity (get "maxPriorityFeePerGas" rawTx) priorityFee ->
  isQuantity (maxBaseFeePerGas gasFees) baseFee ->
  get "maxFeePerGas" (populate rawTx chainConfig gas) = VString (hexEncode (priorityFee + baseFee)) /\
  get "maxPriorityFeePerGas" (populate rawTx chainConfig gas) = get "maxPriorityFeePerGas" rawTx /\
  populate rawTx chainConfig gas !! "gasFeesSource" = rawTx !! "gasFeesSource".
Proof.
  intros HmaxFee HmaxPriority Hbase.
  rewrite (populate_london _ _ _ gasFees) by assumption. unfold populateLondon.
  rewrite (isMissing_useFrameValue _ HmaxFee).
  rewrite (isValidHex_useFrameValue _ (isQuantity_isValidHex _ _ HmaxPriority)).
  rewrite (isQuantity_truthy _ _ Hbase).
  cbn [negb andb]. unfold calculateMaxFeePerGas, BigNumberJs.plus.
  rewrite (isQuantity_BigNumber _ _ HmaxPriority), (isQuantity_BigNumber _ _ Hbase).
  cbn [BigNumberJs.toString]. rewrite addHexPrefix_toStringRadix.
  unfold get. now simplify_map_eq.
Qed.

(** X6: Whenever [populate] computes [maxFeePerGas] from integer literals
    ([isQuantity]: unsigned, hexadecimal with digits of one case or decimal),
    the two fee fields of the output are literals, of the fee cap and of the
    priority fee, and the cap is the priority fee plus the base fee of the
    snapshot: the priority fee never exceeds the cap. *)
Theorem populate_fee_cap baseFee priorityFee :
  isQuantity (maxBaseFeePerGas gasFees) baseFee ->
  isQuantity (maxPriorityFeePerGas gasFees) priorityFee ->
  isMissing (get "maxFeePerGas" rawTx) = true ->
  (isMissing (get "maxPriorityFeePerGas" rawTx) = true \/
   exists supplied, isQuantity (get "maxPriorityFeePerGas" rawTx) supplied) ->
  exists tip cap,
    isQuantity (get "maxPriorityFeePerGas" (populate rawTx chainConfig gas)) tip /\
    isQuantity (get "maxFeePerGas" (populate rawTx chainConfig gas)) cap /\
    cap = (tip + baseFee)%N /\
    (tip <= cap)%N.
Proof.
  intros Hbase Hpriority HmaxFee [HmaxPriority | [supplied Hsupplied]].
  - exists priorityFee, (priorityFee + baseFee)%N.
    rewrite (populate_london _ _ _ gasFees) by assumption. unfold populateLondon.
    rewrite (isMissing_useFrameValue _ HmaxFee), (isMissing_useFrameValue _ HmaxPriority).
    rewrite (isQuantity_truthy _ _ Hbase), (isQuantity_truthy _ _ Hpriority).
    cbn [negb andb]. unfold calculateMaxFeePerGas, BigNumberJs.plus.
    rewrite (isQuantity_BigNumber _ _ Hbase), (isQuantity_BigNumber _ _ Hpriority).
    cbn [BigNumberJs.toString]. rewrite !addHexPrefix_toStringRadix.
    unfold get. simplify_map_eq.
    split; [apply isQuantity_hexEncode|].
    split; [apply isQuantity_hexEncode|]. split; [reflexivity | lia].
  - exists supplied, (supplied + baseFee)%N.
    rewrite (populate_london _ _ _ gasFees) by assumption. unfold populateLondon.
    rewrite (isMissing_useFrameValue _ HmaxFee).
    rewrite (isValidHex_useFrameValue _ (isQuantity_isValidHex _ _ Hsupplied)).
    rewrite (isQuantity_truthy _ _ Hbase).
    cbn [negb andb]. unfold calculateMaxFeePerGas, BigNumberJs.plus.
    rewrite (isQuantity_BigNumber _ _ Hsupplied), (isQuantity_BigNumber _ _ Hbase).
    cbn [BigNumberJs.toString]. rewrite addHexPrefix_toStringRadix.
    unfold get in *. simplify_map_eq.
    split; [exact Hsupplied|].
    split; [apply isQuantity_hexEncode|]. split; [reflexivity | lia].
Qed.

(** X7: Without a base fee in the estimate, a missing [maxFeePerGas] cannot be
    computed: the output holds the key with the value the request had (none,
    or the unparseable one), so the field is still not valid hex. *)
Theorem populate_without_base_fee :
  truthy (maxBaseFeePerGas gasFees) = false ->
  isMissing (get "maxFeePerGas" rawTx) = true ->
  populate rawTx chainConfig gas !! "maxFeePerGas" = Some (get "maxFeePerGas" rawTx) /\
  isValidHex (get "maxFeePerGas" (populate rawTx chainConfig gas)) = false.
Proof.
  intros Hbase HmaxFee.
  assert (E : populate rawTx chainConfig gas !! "maxFeePerGas" = Some (get "maxFeePerGas" rawTx)).
  { rewrite (populate_london _ _ _ gasFees) by assumption. unfold populateLondon.
    rewrite (isMissing_useFrameValue _ HmaxFee), Hbase. cbn [negb andb].
    destruct (useFrameValue (get "maxPriorityFeePerGas" rawTx)); unfold get; now simplify_map_eq. }
  split; [exact E|]. unfold get at 1. rewrite E. cbn [default from_option id].
  destruct (get "maxFeePerGas" rawTx) as [|b|str]; try reflexivity.
  cbn [isMissing isValidHex] in *. now rewrite HmaxFee.
Qed.

(** X8: With no fee field in the request and no priority fee in the estimate,
    both fee fields of the output are the string 0xNaN. *)
Theorem populate_without_priority_fee :
  get "maxFeePerGas" rawTx = VUndefined ->
  get "maxPriorityFeePerGas" rawTx = VUndefined ->
  truthy (maxPriorityFeePerGas gasFees) = false ->
  truthy (maxBaseFeePerGas gasFees) = true ->
  get "maxFeePerGas" (populate rawTx chainConfig gas) = VString "0xNaN" /\
  get "maxPriorityFeePerGas" (populate rawTx chainConfig gas) = VString "0xNaN" /\
  get "gasFeesSource" (populate rawTx chainConfig gas) = GasFeesSource.Frame.
Proof.
  intros HmaxFee HmaxPriority Hpriority Hbase.
  rewrite (populate_london _ _ _ gasFees) by assumption. unfold populateLondon.
  rewrite HmaxFee, HmaxPriority, Hpriority, Hbase.
  unfold get. simplify_map_eq. repeat split.
Qed.

End FeeMarket.

Lemma populate_keeps_supplied_maxFeePerGas_witness :
  get "maxFeePerGas" (populate Fixture.onlyMaxFee Sample.london Sample.gasWithFees)
    = VString "0x1" /\
  get "maxPriorityFeePerGas" (populate Fixture.onlyMaxFee Sample.london Sample.gasWithFees)
    = VString "0x77359400" /\
  populate Fixture.onlyMaxFee Sample.london Sample.gasWithFees !! "gasFeesSource"
    = Some GasFeesSource.Dapp.
Proof.
  apply (populate_keeps_supplied_maxFeePerGas Fixture.onlyMaxFee Sample.london
           Sample.gasWithFees Sample.feeEstimate eq_refl eq_refl 2000000000%N);
    [reflexivity | reflexivity | exists "0x77359400"; split; reflexivity].
Defined.

Lemma populate_keeps_supplied_maxPriorityFeePerGas_witness :
  get "maxFeePerGas"
    (populate Fixture.upperCaseMaxPriorityFee Sample.london Sample.gasWithFees)
    = VString "0x3b9acaff" /\
  get "maxPriorityFeePerGas"
    (populate Fixture.upperCaseMaxPriorityFee Sample.london Sample.gasWithFees)
    = VString "0xFF" /\
  populate Fixture.upperCaseMaxPriorityFee Sample.london Sample.gasWithFees !! "gasFeesSource"
    = Some GasFeesSource.Dapp.
Proof.
  apply (populate_keeps_supplied_maxPriorityFeePerGas Fixture.upperCaseMaxPriorityFee
           Sample.london Sample.gasWithFees Sample.feeEstimate eq_refl eq_refl
           1000000000%N 255%N);
    [reflexivity | exists "0xFF"; split; reflexivity
     | exists "0x3b9aca00"; split; reflexivity].
Defined.

Lemma populate_fee_cap_witness :
  exists tip cap,
    isQuantity (get "maxPriorityFeePerGas"
                  (populate Fixture.upperCaseMaxPriorityFee Sample.london Sample.gasWithFees)) tip /\
    isQuantity (get "maxFeePerGas"
                  (populate Fixture.upperCaseMaxPriorityFee Sample.london Sample.gasWithFees)) cap /\
    cap = (tip + 1000000000)%N /\
    (tip <= cap)%N.
Proof.
  apply (populate_fee_cap Fixture.upperCaseMaxPriorityFee Sample.london Sample.gasWithFees
           Sample.feeEstimate eq_refl eq_refl 1000000000%N 2000000000%N);
    [exists "0x3b9aca00"; split; reflexivity | exists "0x77359400"; split; reflexivity
     | reflexivity | right; exists 255%N, "0xFF"; split; reflexivity].
Defined.

Lemma populate_without_base_fee_witness :
  populate Sample.bare Sample.london Fixture.gasWithoutBaseFee !! "maxFeePerGas"
    = Some VUndefined /\
  isValidHex (get "maxFeePerGas" (populate Sample.bare Sample.london Fixture.gasWithoutBaseFee))
    = false.
Proof.
  apply (populate_without_base_fee Sample.bare Sample.london Fixture.gasWithoutBaseFee _
           eq_refl eq_refl); reflexivity.
Defined.

Lemma populate_without_priority_fee_witness :
  get "maxFeePerGas" (populate Sample.bare Sample.london Fixture.gasWithoutPriorityFee)
    = VString "0xNaN" /\
  get "maxPriorityFeePerGas" (populate Sample.bare Sample.london Fixture.gasWithoutPriorityFee)
    = VString "0xNaN" /\
  get "gasFeesSource" (populate Sample.bare Sample.london Fixture.gasWithoutPriorityFee)
    = GasFeesSource.Frame.
Proof.
  apply (populate_without_priority_fee Sample.bare Sample.london Fixture.gasWithoutPriorityFee
           Fixture.estimateWithoutPriorityFee eq_refl eq_refl); reflexivity.
Defined.

(** Reads the fields of a map built by assignments. *)
Ltac read_fields :=
  unfold get;
  repeat first [rewrite lookup_insert_eq | rewrite lookup_insert_ne by discriminate];
  cbn [default from_option id];
  repeat match goal with |- context [default VUndefined (?m !! ?k)] => fold (get k m) end.

(** X9: With a snapshot whose prices are integer literals ([isQuantity]:
    unsigned, hexadecimal with digits of one case or decimal), and a request
    whose [gasPrice] and [maxFeePerGas] are each missing or valid hex and
    whose [maxPriorityFeePerGas] is missing or such a literal, the output of
    [populate] has its active fee fields filled with valid hex. *)
Theorem populate_fills rawTx chainConfig gas :
  (exists fastPrice, isQuantity (fast (levels (price gas))) fastPrice) ->
  (forall gasFees, fees (price gas) = Some gasFees ->
     exists baseFee priorityFee,
       isQuantity (maxBaseFeePerGas gasFees) baseFee /\
       isQuantity (maxPriorityFeePerGas gasFees) priorityFee) ->
  validOrMissing (get "gasPrice" rawTx) ->
  validOrMissing (get "maxFeePerGas" rawTx) ->
  literalOrMissing (get "maxPriorityFeePerGas" rawTx) ->
  feeFieldsFilled chainConfig gas (populate rawTx chainConfig gas) = true.
Proof.
  intros [fastPrice Hfast] Hestimate HgasPrice HmaxFee HmaxPriority.
  unfold feeFieldsFilled. destruct (feeMarketActive chainConfig gas) eqn:Hcase.
  - apply feeMarketActive_true in Hcase as [H1559 [gasFees Hfees]].
    destruct (Hestimate gasFees Hfees) as (baseFee & priorityFee & Hbase & Hpriority).
    rewrite (populate_london _ _ _ gasFees) by assumption. unfold populateLondon.
    rewrite (isQuantity_truthy _ _ Hbase), (isQuantity_truthy _ _ Hpriority).
    unfold calculateMaxFeePerGas, BigNumberJs.plus.
    destruct HmaxFee as [HmaxFee | HmaxFee];
      destruct HmaxPriority as [HmaxPriority | [supplied Hsupplied]].
    + rewrite (isMissing_useFrameValue _ HmaxFee), (isMissing_useFrameValue _ HmaxPriority).
      cbn [negb andb].
      rewrite (isQuantity_BigNumber _ _ Hbase), (isQuantity_BigNumber _ _ Hpriority).
      cbn [BigNumberJs.toString]. rewrite !addHexPrefix_toStringRadix.
      read_fields. now rewrite !isValidHex_hexEncode.
    + rewrite (isMissing_useFrameValue _ HmaxFee).
      rewrite (isValidHex_useFrameValue _ (isQuantity_isValidHex _ _ Hsupplied)).
      cbn [negb andb].
      rewrite (isQuantity_BigNumber _ _ Hbase), (isQuantity_BigNumber _ _ Hsupplied).
      cbn [BigNumberJs.toString]. rewrite !addHexPrefix_toStringRadix.
      pose proof (isQuantity_isValidHex _ _ Hsupplied) as Hvalid.
      read_fields. now rewrite isValidHex_hexEncode, Hvalid.
    + rewrite (isValidHex_useFrameValue _ HmaxFee), (isMissing_useFrameValue _ HmaxPriority).
      cbn [negb andb]. rewrite (isQuantity_BigNumber _ _ Hpriority).
      cbn [BigNumberJs.toString]. rewrite !addHexPrefix_toStringRadix.
      read_fields. now rewrite isValidHex_hexEncode, HmaxFee.
    + pose proof (isQuantity_isValidHex _ _ Hsupplied) as Hvalid.
      rewrite (isValidHex_useFrameValue _ HmaxFee), (isValidHex_useFrameValue _ Hvalid).
      cbn [negb andb]. read_fields. now rewrite HmaxFee, Hvalid.
  - rewrite populate_legacy by assumption. unfold populateLegacy.
    destruct HgasPrice as [HgasPrice | HgasPrice].
    + rewrite (isMissing_useFrameValue _ HgasPrice), (isQuantity_BigNumber _ _ Hfast).
      cbn [BigNumberJs.toString]. rewrite addHexPrefix_toStringRadix.
      read_fields. apply isValidHex_hexEncode.
    + rewrite (isValidHex_useFrameValue _ HgasPrice).
      read_fields. assumption.
Qed.

Lemma populate_fills_witness :
  feeFieldsFilled Sample.london Sample.gasWithFees
    (populate Fixture.onlyMaxPriorityFee Sample.london Sample.gasWithFees) = true.
Proof.
  apply (populate_fills Fixture.onlyMaxPriorityFee Sample.london Sample.gasWithFees).
  - exists 24000000000%N, "0x59682f000". split; reflexivity.
  - intros gasFees [= <-]. exists 1000000000%N, 2000000000%N.
    split; [exists "0x3b9aca00" | exists "0x77359400"]; split; reflexivity.
  - left. reflexivity.
  - left. reflexivity.
  - right. exists 10%N, "10". split; reflexivity.
Defined.

(* ===================================================================== *)
(** * calculateMaxFeePerGas and hexifySignature *)
(* ===================================================================== *)

(** X10: For two integer literals ([isQuantity]: unsigned, hexadecimal with
    digits of one case or decimal), [calculateMaxFeePerGas] returns the
    lower-case hexadecimal literal of their sum: reading the result back
    gives the sum, and the order of the arguments does not matter. *)
Theorem calculateMaxFeePerGas_sum maxBaseFee maxPriorityFee baseFee priorityFee :
  isQuantity maxBaseFee baseFee ->
  isQuantity maxPriorityFee priorityFee ->
  calculateMaxFeePerGas maxBaseFee maxPriorityFee = hexEncode (priorityFee + baseFee) /\
  isQuantity (VString (calculateMaxFeePerGas maxBaseFee maxPriorityFee)) (priorityFee + baseFee) /\
  calculateMaxFeePerGas maxPriorityFee maxBaseFee = calculateMaxFeePerGas maxBaseFee maxPriorityFee.
Proof.
  intros Hbase Hpriority.
  assert (E : forall a b x y, isQuantity a x -> isQuantity b y ->
                calculateMaxFeePerGas a b = hexEncode (y + x)).
  { intros a b x y Ha Hb. unfold calculateMaxFeePerGas, BigNumberJs.plus.
    rewrite (isQuantity_BigNumber _ _ Ha), (isQuantity_BigNumber _ _ Hb).
    cbn [BigNumberJs.toString]. apply addHexPrefix_toStringRadix. }
  rewrite (E _ _ _ _ Hbase Hpriority), (E _ _ _ _ Hpriority Hbase).
  split; [reflexivity|]. split; [apply isQuantity_hexEncode|]. f_equal. lia.
Qed.

Lemma calculateMaxFeePerGas_sum_witness :
  calculateMaxFeePerGas (VString "0X3B9ACA00") (VString "2000000000") = "0xb2d05e00" /\
  isQuantity (VString (calculateMaxFeePerGas (VString "0X3B9ACA00") (VString "2000000000")))
    3000000000 /\
  calculateMaxFeePerGas (VString "2000000000") (VString "0X3B9ACA00")
    = calculateMaxFeePerGas (VString "0X3B9ACA00") (VString "2000000000").
Proof.
  apply (calculateMaxFeePerGas_sum (VString "0X3B9ACA00") (VString "2000000000")
           1000000000%N 2000000000%N).
  - exists "0X3B9ACA00". split; reflexivity.
  - exists "2000000000". split; reflexivity.
Defined.

Lemma addHexPrefix_prefixed str : isHexPrefixed (addHexPrefix str) = true.
Proof. unfold addHexPrefix. destruct (isHexPrefixed str) eqn:E; [exact E | reflexivity]. Qed.

Lemma addHexPrefix_idempotent str : addHexPrefix (addHexPrefix str) = addHexPrefix str.
Proof. unfold addHexPrefix at 1. now rewrite addHexPrefix_prefixed. Qed.

(** X11: Every component of a hexified signature carries the [0x] prefix, exactly
    one is added where it was missing, and hexifying again changes nothing. *)
Theorem hexifySignature_prefixes sig :
  isHexPrefixed (v (hexifySignature sig)) = true /\
  isHexPrefixed (r (hexifySignature sig)) = true /\
  isHexPrefixed (s (hexifySignature sig)) = true /\
  v (hexifySignature sig) = (if isHexPrefixed (v sig) then v sig else "0x" +:+ v sig) /\
  r (hexifySignature sig) = (if isHexPrefixed (r sig) then r sig else "0x" +:+ r sig) /\
  s (hexifySignature sig) = (if isHexPrefixed (s sig) then s sig else "0x" +:+ s sig) /\
  hexifySignature (hexifySignature sig) = hexifySignature sig.
Proof.
  unfold hexifySignature. cbn [v r s].
  rewrite !addHexPrefix_prefixed, !addHexPrefix_idempotent. repeat split.
Qed.

(* ===================================================================== *)
(** * londonToLegacy: further properties *)
(* ===================================================================== *)

(** X12: [londonToLegacy] never returns a transaction of type '0x2', and applying
    it twice is the same as applying it once. *)
Theorem londonToLegacy_idempotent (txData : TransactionData) :
  get "type" (londonToLegacy txData) <> VString "0x2" /\
  londonToLegacy (londonToLegacy txData) = londonToLegacy txData.
Proof.
  assert (Htype : get "type" (londonToLegacy txData) <> VString "0x2").
  { unfold londonToLegacy.
    destruct (strictEqString (get "type" txData) "0x2") eqn:E.
    - read_fields. discriminate.
    - intros H. rewrite H in E. discriminate E. }
  split; [exact Htype|].
  unfold londonToLegacy at 1.
  destruct (get "type" (londonToLegacy txData)) as [|b|str]; try reflexivity.
  cbn [strictEqString]. destruct (String.eqb_spec str "0x2") as [->|]; [congruence | reflexivity].
Qed.

(** X13: On references: [londonToLegacy] never writes to its argument.  For a
    type other than '0x2' it returns the very reference it was given and
    leaves the store as it is; for '0x2' it returns a new reference, with the
    argument and every other object unchanged. *)
Theorem londonToLegacy_aliasing (h : gmap positive (gmap string JSValue)) txData own :
  h !! txData = Some own ->
  let '(result, h') := OnStore.londonToLegacy txData h in
  h' !! txData = Some own /\
  (get "type" own <> VString "0x2" -> result = txData /\ h' = h) /\
  (get "type" own = VString "0x2" ->
     h !! result = None /\ h' !! result = Some (londonToLegacy own) /\
     forall o, o <> result -> h' !! o = h !! o).
Proof.
  intros Hown. rewrite (OnStore_londonToLegacy h txData own Hown).
  pose proof (fresh_location h) as Hfresh.
  destruct (strictEqString (get "type" own) "0x2") eqn:E.
  - split; [rewrite lookup_insert_ne by congruence; exact Hown|].
    split.
    + intros Hne. destruct (get "type" own) as [|b|str]; try discriminate E.
      cbn [strictEqString] in E. apply String.eqb_eq in E. congruence.
    + intros _. split; [exact Hfresh|]. split; [apply lookup_insert_eq|].
      intros o Ho. now rewrite lookup_insert_ne.
  - split; [exact Hown|]. split; [now intros _|].
    intros H. rewrite H in E. discriminate E.
Qed.

Lemma londonToLegacy_aliasing_witness :
  (let '(result, h') := OnStore.londonToLegacy 2%positive Fixture.twoTransactions in
   h' !! 2%positive = Some Sample.withGasPrice /\
   (get "type" Sample.withGasPrice <> VString "0x2" ->
      result = 2%positive /\ h' = Fixture.twoTransactions) /\
   (get "type" Sample.withGasPrice = VString "0x2" ->
      Fixture.twoTransactions !! result = None /\
      h' !! result = Some (londonToLegacy Sample.withGasPrice) /\
      forall o, o <> result -> h' !! o = Fixture.twoTransactions !! o)) /\
  (let '(result, h') := OnStore.londonToLegacy 1%positive Fixture.twoTransactions in
   h' !! 1%positive = Some Sample.londonWithMaxFees /\
   (get "type" Sample.londonWithMaxFees <> VString "0x2" ->
      result = 1%positive /\ h' = Fixture.twoTransactions) /\
   (get "type" Sample.londonWithMaxFees = VString "0x2" ->
      Fixture.twoTransactions !! result = None /\
      h' !! result = Some (londonToLegacy Sample.londonWithMaxFees) /\
      forall o, o <> result -> h' !! o = Fixture.twoTransactions !! o)).
Proof.
  split.
  - apply (londonToLegacy_aliasing Fixture.twoTransactions 2%positive Sample.withGasPrice).
    reflexivity.
  - apply (londonToLegacy_aliasing Fixture.twoTransactions 1%positive Sample.londonWithMaxFees).
    reflexivity.
Defined.

(* ===================================================================== *)
(** * populate, then londonToLegacy, then the ruleset of sign *)
(* ===================================================================== *)

(** X14: Downgrading what [populate] returns.  In the fee-market case the result
    has type 0x0, its [gasPrice] is the populated [maxFeePerGas] (a
    [gasPrice] of the request is overwritten), the two fee-market keys are
    gone, [gasFeesSource] is as populated and every field outside the fee
    fields is as in the request.  In the legacy case nothing changes. *)
Theorem populate_then_londonToLegacy rawTx chainConfig gas :
  let populated := populate rawTx chainConfig gas in
  (feeMarketActive chainConfig gas = true ->
     londonToLegacy populated !! "type" = Some (VString "0x0") /\
     londonToLegacy populated !! "gasPrice" = Some (get "maxFeePerGas" populated) /\
     londonToLegacy populated !! "maxFeePerGas" = None /\
     londonToLegacy populated !! "maxPriorityFeePerGas" = None /\
     londonToLegacy populated !! "gasFeesSource" = populated !! "gasFeesSource" /\
     (forall k, k ∉ feeKeys -> londonToLegacy populated !! k = rawTx !! k)) /\
  (feeMarketActive chainConfig gas = false -> londonToLegacy populated = populated).
Proof.
  cbv zeta.
  assert (Htype : get "type" (populate rawTx chainConfig gas) =
            VString (if feeMarketActive chainConfig gas then "0x2"
                     else if isActivatedEIP chainConfig 2930 then "0x1" else "0x0")).
  { unfold get. now rewrite populate_type_lookup. }
  split.
  - intros Hcase. rewrite Hcase in Htype. unfold londonToLegacy. rewrite Htype.
    cbn [strictEqString String.eqb Ascii.eqb Bool.eqb].
    split; [now simplify_map_eq|]. split; [now simplify_map_eq|].
    split; [now simplify_map_eq|]. split; [now simplify_map_eq|].
    split; [now simplify_map_eq|].
    intros k Hk. pose proof (populate_untouched rawTx chainConfig gas k Hk) as Hsame.
    unfold feeKeys in Hk. rewrite !not_elem_of_cons in Hk.
    destruct Hk as (? & ? & ? & ? & ? & _). now simplify_map_eq.
  - intros Hcase. rewrite Hcase in Htype. unfold londonToLegacy. rewrite Htype.
    now destruct (isActivatedEIP chainConfig 2930).
Qed.

Lemma populate_then_londonToLegacy_witness :
  londonToLegacy (populate Sample.withGasPrice Sample.london Sample.gasWithFees) !! "gasPrice"
    = Some (VString "0xb2d05e00") /\
  londonToLegacy (populate Sample.withGasPrice Sample.berlin Sample.gasWithFees)
    = populate Sample.withGasPrice Sample.berlin Sample.gasWithFees.
Proof.
  destruct (populate_then_londonToLegacy Sample.withGasPrice Sample.london Sample.gasWithFees)
    as [Hlondon _].
  destruct (Hlondon eq_refl) as (_ & HgasPrice & _).
  destruct (populate_then_londonToLegacy Sample.withGasPrice Sample.berlin Sample.gasWithFees)
    as [_ Hlegacy].
  split; [exact HgasPrice | exact (Hlegacy eq_refl)].
Defined.

(** X15: The ruleset [sign] resolves for a populated transaction: the chain id
    read from the request's own [chainId], with hardfork 'london' exactly in
    the fee-market case; once the populated transaction went through
    [londonToLegacy] the hardfork is always 'berlin'. *)
Theorem sign_ruleset_of_populated rawTx chainConfig gas :
  signChainConfigArgs (populate rawTx chainConfig gas) =
    (parseInt (get "chainId" rawTx) 16,
     if feeMarketActive chainConfig gas then "london" else "berlin") /\
  signChainConfigArgs (londonToLegacy (populate rawTx chainConfig gas)) =
    (parseInt (get "chainId" rawTx) 16, "berlin").
Proof.
  assert (Htype : get "type" (populate rawTx chainConfig gas) =
            VString (if feeMarketActive chainConfig gas then "0x2"
                     else if isActivatedEIP chainConfig 2930 then "0x1" else "0x0")).
  { unfold get. now rewrite populate_type_lookup. }
  assert (HchainId : forall tx : TransactionData,
            tx !! "chainId" = rawTx !! "chainId" -> get "chainId" tx = get "chainId" rawTx).
  { intros tx H. unfold get. now rewrite H. }
  assert (Hk : "chainId" ∉ feeKeys).
  { unfold feeKeys. rewrite !not_elem_of_cons.
    repeat split; (discriminate || apply not_elem_of_nil). }
  pose proof (populate_untouched rawTx chainConfig gas "chainId" Hk) as Hsame.
  unfold signChainConfigArgs. split.
  - rewrite (HchainId _ Hsame), Htype. f_equal.
    destruct (feeMarketActive chainConfig gas); [reflexivity|].
    now destruct (isActivatedEIP chainConfig 2930).
  - unfold londonToLegacy. rewrite Htype.
    destruct (feeMarketActive chainConfig gas).
    + cbn [strictEqString String.eqb Ascii.eqb Bool.eqb].
      f_equal; [|now read_fields].
      f_equal. apply HchainId. now simplify_map_eq.
    + destruct (isActivatedEIP chainConfig 2930);
        cbn [strictEqString String.eqb Ascii.eqb Bool.eqb];
        rewrite (HchainId _ Hsame), Htype; reflexivity.
Qed.

(* ===================================================================== *)
(** * The version gates as release thresholds *)
(* ===================================================================== *)

Lemma signerCompatibility_matrix_witness :
  exists b : bool,
    signerCompatibility typeSupportsBaseFee_spec Sample.londonWithMaxFees (Fixture.ledger 1 9 0) =
      Return {| signer := "ledger"; tx := "london"; compatible := CBool b |} /\
    b = true.
Proof.
  destruct (signerCompatibility_matrix typeSupportsBaseFee_spec Sample.londonWithMaxFees
              (Fixture.ledger 1 9 0) eq_refl eq_refl)
    as (b & Hresult & _ & Hledger & _).
  exists b. split; [exact Hresult|].
  apply (Hledger eq_refl). right. cbn. lia.
Defined.

Section Gates.

Local Open Scope Z_scope.

Variables (version : AppVersion) (model : option string).

(** X17: Each gate of the table is a release threshold: for version numbers that
    are not negative, a ledger is compatible from 1.9.0 on, a trezor one from
    1.10.4 on, any other trezor from 2.4.2 on and a lattice from 0.11.0 on. *)
Theorem gates_are_thresholds :
  versionWellFormed version ->
  (lookupAndCall "ledger" version model = Return (CBool true) <-> versionAtLeast version 1 9 0) /\
  (toLowerCase (default "" model) = "trezor one" ->
     lookupAndCall "trezor" version model = Return (CBool true) <->
     versionAtLeast version 1 10 4) /\
  (toLowerCase (default "" model) <> "trezor one" ->
     lookupAndCall "trezor" version model = Return (CBool true) <->
     versionAtLeast version 2 4 2) /\
  (lookupAndCall "lattice" version model = Return (CBool true) <-> versionAtLeast version 0 11 0).
Proof.
  intros (Hmajor & Hminor & Hpatch). unfold versionAtLeast.
  assert (Hbool : forall b : bool, Return (CBool b) = Return (CBool true) <-> b = true).
  { intros b. split; [now intros [= ->] | now intros ->]. }
  split; [|split; [|split]].
  - change (lookupAndCall "ledger" version model) with
      (Return (CBool ((major version >=? 2) ||
                      ((major version >=? 1) && (minor version >=? 9))))).
    rewrite Hbool. lia.
  - intros Hone. unfold lookupAndCall, londonHardforkSigners.
    cbn [String.eqb Ascii.eqb Bool.eqb]. apply String.eqb_eq in Hone. rewrite Hone.
    rewrite Hbool. lia.
  - intros Hother. unfold lookupAndCall, londonHardforkSigners.
    cbn [String.eqb Ascii.eqb Bool.eqb]. apply String.eqb_neq in Hother. rewrite Hother.
    rewrite Hbool. lia.
  - change (lookupAndCall "lattice" version model) with
      (Return (CBool ((major version >=? 1) || (minor version >=? 11)))).
    rewrite Hbool. lia.
Qed.

End Gates.

Lemma gates_are_thresholds_witness :
  (lookupAndCall "lattice" {| major := 0; minor := 11; patch := 0 |} None = Return (CBool true)
     <-> versionAtLeast {| major := 0; minor := 11; patch := 0 |} 0 11 0) /\
  lookupAndCall "lattice" {| major := 0; minor := 11; patch := 0 |} None = Return (CBool true).
Proof.
  destruct (gates_are_thresholds {| major := 0; minor := 11; patch := 0 |} None) as (_ & _ & _ & H).
  - repeat split; cbn; lia.
  - split; [exact H|]. apply H. right. cbn. lia.
Defined.

(** X18: Upgrading never loses compatibility: if a signer is compatible at a
    version, the same signer type and model is compatible at every later
    version. *)
Theorem compatibility_monotone key model (older newer : AppVersion) :
  versionWellFormed older ->
  versionLe older newer ->
  lookupAndCall key older model = Return (CBool true) ->
  lookupAndCall key newer model = Return (CBool true).
Proof.
  intros (Hmajor & Hminor & Hpatch) Hle. unfold versionLe in Hle.
  unfold lookupAndCall, londonHardforkSigners.
  destruct (String.eqb key "seed"); [trivial|].
  destruct (String.eqb key "ring"); [trivial|].
  destruct (String.eqb key "ledger").
  { intros [= H]. do 2 f_equal. lia. }
  destruct (String.eqb key "trezor").
  { destruct (String.eqb (toLowerCase (default "" model)) "trezor one");
      intros [= H]; do 2 f_equal; lia. }
  destruct (String.eqb key "lattice").
  { intros [= H]. do 2 f_equal. lia. }
  unfold ObjectPrototype.
  repeat match goal with
         | |- context [if String.eqb key ?name then _ else _] =>
             destruct (String.eqb key name); [discriminate|]
         end.
  discriminate.
Qed.

Lemma compatibility_monotone_witness :
  lookupAndCall "trezor" {| major := 2; minor := 5; patch := 0 |} (Some "Trezor T")
    = Return (CBool true).
Proof.
  apply (compatibility_monotone "trezor" (Some "Trezor T")
           {| major := 2; minor := 4; patch := 2 |} {| major := 2; minor := 5; patch := 0 |}).
  - repeat split; cbn; lia.
  - right. split; [reflexivity|]. left. cbn. lia.
  - reflexivity.
Defined.

Lemma lookupAndCall_throws key version model :
  (exists error, lookupAndCall key version model = Throw error) <-> key ∈ throwingKeys.
Proof.
  unfold lookupAndCall, londonHardforkSigners, ObjectPrototype, throwingKeys.
  rewrite !elem_of_cons, elem_of_nil.
  repeat match goal with
         | |- context [if String.eqb key ?name then _ else _] =>
             destruct (String.eqb_spec key name) as [->|];
               [split;
                [intros [error He]; first [discriminate He | tauto]
                |intros Hin; first [eexists; reflexivity
                                   | exfalso; intuition discriminate]]
               |]
         end.
  split; [intros [error He]; discriminate He | intuition congruence].
Qed.

(** X19: [signerCompatibility] throws exactly when the transaction supports a
    base fee and the signer type is one of [__defineGetter__],
    [__defineSetter__] and [__proto__]; in every other case it returns a
    result that names the signer type, 'london' or 'legacy'. *)
Theorem signerCompatibility_throws (typeSupportsBaseFee : JSValue -> bool) txData summary :
  ((exists error, signerCompatibility typeSupportsBaseFee txData summary = Throw error) <->
   typeSupportsBaseFee (get "type" txData) = true /\ type summary ∈ throwingKeys) /\
  (forall result, signerCompatibility typeSupportsBaseFee txData summary = Return result ->
     signer result = type summary /\
     tx result = if typeSupportsBaseFee (get "type" txData) then "london" else "legacy").
Proof.
  pose proof (lookupAndCall_throws (type summary) (appVersion summary) (model summary)) as Hthrows.
  unfold signerCompatibility.
  destruct (typeSupportsBaseFee (get "type" txData)).
  - destruct (lookupAndCall (type summary) (appVersion summary) (model summary))
      as [value | error].
    + split.
      * split; [intros [error He]; discriminate He|].
        intros [_ Hin]. apply Hthrows in Hin as [error He]. discriminate He.
      * intros result [= <-]. split; reflexivity.
    + split.
      * split; [|intros _; now exists error].
        intros _. split; [reflexivity|]. apply Hthrows. now exists error.
      * intros result He. discriminate He.
  - split.
    + split; [intros [error He]; discriminate He | intros [Hc _]; discriminate Hc].
    + intros result [= <-]. split; reflexivity.
Qed.

Lemma signerCompatibility_throws_witness :
  exists error,
    signerCompatibility typeSupportsBaseFee_spec Sample.londonWithMaxFees Fixture.protoSigner
      = Throw error.
Proof.
  apply (signerCompatibility_throws typeSupportsBaseFee_spec Sample.londonWithMaxFees
           Fixture.protoSigner).
  split; [reflexivity|]. unfold throwingKeys. rewrite !elem_of_cons. auto.
Defined.

(* ===================================================================== *)
(** * classifyTransaction: what each class tells about the request *)
(* ===================================================================== *)

Section Classes.

Variable isNonZeroHex : string -> bool.

(** X20: A classification is returned only for a request with a first parameter,
    and each class pins the request down: CONTRACT_DEPLOY has no [to];
    SEND_DATA has an external recipient and data longer than '0x';
    CONTRACT_CALL has non-zero data and a recipient that is not external;
    so an external recipient is never a CONTRACT_CALL and any other
    recipient is never SEND_DATA. *)
Theorem classifyTransaction_inversion request class :
  classifyTransaction isNonZeroHex request = Return class ->
  exists param0 rest,
    params (payload request) = param0 :: rest /\
    let hasTo := truthy (ofOption (to param0)) in
    let data := default "0x" (data param0) in
    let external := recipientType request = Some "external" in
    match class with
    | CONTRACT_DEPLOY => hasTo = false
    | SEND_DATA => hasTo = true /\ external /\ (2 < String.length data)%nat
    | CONTRACT_CALL => hasTo = true /\ ~ external /\ isNonZeroHex data = true
    | NATIVE_TRANSFER =>
        hasTo = true /\ (external -> (String.length data <= 2)%nat) /\
        (~ external -> isNonZeroHex data = false)
    end.
Proof.
  unfold classifyTransaction.
  destruct (params (payload request)) as [|param0 rest]; [discriminate|].
  intros Hclass. exists param0, rest. split; [reflexivity|]. cbv zeta.
  assert (Hext : strictEqString (ofOption (recipientType request)) "external" = true <->
                 recipientType request = Some "external").
  { destruct (recipientType request) as [str|]; cbn [ofOption strictEqString].
    - rewrite String.eqb_eq. split; congruence.
    - split; discriminate. }
  destruct (truthy (ofOption (to param0))); cbn [negb] in Hclass;
    [|now injection Hclass as <-].
  destruct (strictEqString (ofOption (recipientType request)) "external") eqn:E.
  - assert (He : recipientType request = Some "external") by now apply Hext.
    destruct (Nat.ltb_spec 2 (String.length (default "0x" (data param0)))) as [Hlen | Hlen];
      cbn [andb negb] in Hclass.
    + injection Hclass as <-. auto.
    + rewrite andb_false_r in Hclass. injection Hclass as <-.
      split; [reflexivity|]. split; [intros _; exact Hlen | intros Hc; contradiction].
  - assert (He : recipientType request <> Some "external").
    { intros He. apply Hext in He. congruence. }
    cbn [andb negb] in Hclass. rewrite andb_true_r in Hclass.
    destruct (isNonZeroHex (default "0x" (data param0))) eqn:Hnz; injection Hclass as <-.
    + auto.
    + split; [reflexivity|]. split; [intros Hc; contradiction | intros _; reflexivity].
Qed.

(** X21: A request with an address and no [data] is a NATIVE_TRANSFER for every
    recipient type, provided the empty marker '0x' does not count as
    non-zero hex. *)
Theorem classifyTransaction_without_data request param0 rest :
  isNonZeroHex "0x" = false ->
  params (payload request) = param0 :: rest ->
  truthy (ofOption (to param0)) = true ->
  data param0 = None ->
  classifyTransaction isNonZeroHex request = Return NATIVE_TRANSFER.
Proof.
  intros Hmarker Hparams Hto Hdata. unfold classifyTransaction.
  rewrite Hparams, Hto, Hdata. cbn [negb default from_option id]. rewrite Hmarker.
  change (2 <? String.length "0x")%nat with false.
  now rewrite andb_false_r.
Qed.

End Classes.

Lemma classifyTransaction_inversion_witness :
  exists param0 rest,
    params (payload Sample.sendDataRequest) = param0 :: rest /\
    truthy (ofOption (to param0)) = true /\
    recipientType Sample.sendDataRequest = Some "external" /\
    (2 < String.length (default "0x" (data param0)))%nat.
Proof.
  exact (classifyTransaction_inversion isNonZeroHex_spec Sample.sendDataRequest SEND_DATA
           eq_refl).
Defined.

Lemma classifyTransaction_without_data_witness :
  classifyTransaction isNonZeroHex_spec Fixture.plainTransfer = Return NATIVE_TRANSFER.
Proof.
  apply (classifyTransaction_without_data isNonZeroHex_spec Fixture.plainTransfer
           Fixture.plainParams []); reflexivity.
Defined.

(* ===================================================================== *)
(** * fetchAssets, loadAssets and the observer *)
(* ===================================================================== *)

Section AssetsProperties.

Import Assets.

Context `{Declarations}.

Variable st : State.

(** The step of the [reduce], and what the fold computes from any
    accumulator. *)
Lemma fetchAssets_fold (balances : list TokenBalance) (response : GetAssets) :
  fold_left
    (fun assets balance =>
       if isHidden (getAssetPreferences st) balance then assets
       else if String.eqb (address balance) NATIVE_CURRENCY then
         {| nativeCurrency :=
              nativeCurrency assets ++
              [{| nativeBalance := balance;
                  currencyInfo := getNativeCurrency st (chainId balance) |}];
            erc20 := erc20 assets |}
       else
         {| nativeCurrency := nativeCurrency assets;
            erc20 :=
              erc20 assets ++
              [{| tokenBalance := balance;
                  lastKnownPrice := getUsdRate st (toTokenId balance) |}] |})
    balances response
  = {| nativeCurrency :=
         nativeCurrency response ++
         map (asNative st)
           (List.filter (fun b => negb (isHidden (tokens st) b) && isNative b) balances);
       erc20 :=
         erc20 response ++
         map (asErc20 st)
           (List.filter (fun b => negb (isHidden (tokens st) b) && negb (isNative b)) balances) |}.
Proof.
  revert response. induction balances as [|balance balances IH]; intros response.
  - cbn. rewrite !app_nil_r. now destruct response.
  - cbn [fold_left List.filter]. rewrite IH. unfold getAssetPreferences, isNative.
    destruct (isHidden (tokens st) balance); cbn [negb andb]; [reflexivity|].
    destruct (String.eqb (address balance) NATIVE_CURRENCY); cbn [negb map nativeCurrency erc20];
      now rewrite <- app_assoc.
Qed.

(** X22: [fetchAssets] lists the balances of the account that are not hidden, in
    their order: those at the address [NATIVE_CURRENCY] as native
    currencies, with the currency of their chain, all others as tokens, with
    their rate. *)
Theorem fetchAssets_lists accountId :
  fetchAssets st accountId =
    {| nativeCurrency :=
         map (asNative st)
           (List.filter (fun b => negb (isHidden (tokens st) b) && isNative b)
              (getBalances st accountId));
       erc20 :=
         map (asErc20 st)
           (List.filter (fun b => negb (isHidden (tokens st) b) && negb (isNative b))
              (getBalances st accountId)) |}.
Proof. unfold fetchAssets. now rewrite fetchAssets_fold. Qed.

(** X23: A stored preference decides alone whether a balance is listed: with
    [hidden] false the balance is listed even when it is hidden by default,
    with [hidden] true it is in neither list; and the two lists together have
    as many entries as the account has balances that are not hidden. *)
Theorem fetchAssets_preferences accountId balance prefs :
  In balance (getBalances st accountId) ->
  tokens st !! preferenceKey balance = Some prefs ->
  (hidden prefs = false ->
     if isNative balance
     then In (asNative st balance) (nativeCurrency (fetchAssets st accountId))
     else In (asErc20 st balance) (erc20 (fetchAssets st accountId))) /\
  (hidden prefs = true ->
     ~ In balance (map nativeBalance (nativeCurrency (fetchAssets st accountId))) /\
     ~ In balance (map tokenBalance (erc20 (fetchAssets st accountId)))) /\
  (length (nativeCurrency (fetchAssets st accountId)) +
   length (erc20 (fetchAssets st accountId)) =
   length (List.filter (fun b => negb (isHidden (tokens st) b)) (getBalances st accountId)))%nat.
Proof.
  intros Hin Hprefs. unfold fetchAssets. rewrite fetchAssets_fold.
  cbn [nativeCurrency erc20 app].
  assert (Hhidden : isHidden (tokens st) balance = hidden prefs).
  { unfold isHidden. now rewrite Hprefs. }
  split; [|split].
  - intros Hshown. destruct (isNative balance) eqn:Hnative.
    + apply in_map, filter_In. split; [exact Hin|]. now rewrite Hhidden, Hshown, Hnative.
    + apply in_map, filter_In. split; [exact Hin|]. now rewrite Hhidden, Hshown, Hnative.
  - intros Hh. rewrite !map_map. cbn [asNative asErc20 nativeBalance tokenBalance].
    rewrite !map_id. split; intros Hc; apply filter_In in Hc as [_ Hc];
      rewrite Hhidden, Hh in Hc; discriminate Hc.
  - rewrite !length_map. clear Hin. generalize (getBalances st accountId).
    intros l. induction l as [|b l IH]; [reflexivity|].
    cbn [List.filter]. destruct (isHidden (tokens st) b); cbn [negb andb]; [exact IH|].
    destruct (isNative b); cbn [negb length]; lia.
Qed.

(** X24: [loadAssets] answers exactly when the balances of the account were
    updated, at a time other than 0, no more than five minutes (300000 ms)
    before now; otherwise it throws 'assets not known for account'.  Once it
    throws for being out of date it throws at every later time, until the
    balances are updated. *)
Theorem loadAssets_freshness now accountId :
  let fresh (time : Z) : Prop :=
    exists updated, lastUpdated st accountId = Some updated /\
                    updated <> 0%Z /\ (time - updated <= 300000)%Z in
  (fresh now -> loadAssets st now accountId = Return (fetchAssets st accountId)) /\
  (~ fresh now -> loadAssets st now accountId = Throw "assets not known for account") /\
  (forall later, (now <= later)%Z -> ~ fresh now -> ~ fresh later).
Proof.
  cbv zeta. unfold loadAssets, isScanning, getLastUpdated.
  destruct (lastUpdated st accountId) as [updated|].
  - destruct (Z.eqb_spec updated 0) as [->|Hnz]; cbn [orb].
    + split; [intros (u & [= <-] & Hu & _); contradiction|].
      split; [reflexivity|]. intros later _ _ (u & [= <-] & Hu & _). contradiction.
    + destruct (Z.ltb_spec (1000 * 60 * 5) (now - updated)) as [Hold|Hnew].
      * split; [intros (u & [= <-] & _ & Hu); lia|]. split; [reflexivity|].
        intros later Hlater _ (u & [= <-] & _ & Hu). lia.
      * split; [reflexivity|]. split.
        -- intros Hc. contradiction Hc. exists updated. repeat split; [assumption | lia].
        -- intros later _ Hc. contradiction Hc. exists updated. repeat split; [assumption | lia].
  - split; [intros (u & Hu & _); discriminate Hu|]. split; [reflexivity|].
    intros later _ _ (u & Hu & _). discriminate Hu.
Qed.

End AssetsProperties.

Section ObserverProperties.

Import Assets.

Context `{Declarations}.

Lemma isEmpty_lengths (assets : GetAssets) :
  ((0 <? length (erc20 assets))%nat || (0 <? length (nativeCurrency assets))%nat) = true ->
  isEmpty assets = false.
Proof.
  unfold isEmpty. destruct (nativeCurrency assets), (erc20 assets); cbn; congruence.
Qed.

Lemma observe_settled st now observer : settled observer -> settled (observe st now observer).
Proof.
  intros Hs. unfold observe.
  destruct (current st) as [account|]; [|exact Hs].
  destruct (String.eqb account ""); [exact Hs|].
  destruct (negb (isScanning st now account)); cbn [andb]; [|exact Hs].
  destruct ((0 <? length (erc20 (fetchAssets st account)))%nat ||
            (0 <? length (nativeCurrency (fetchAssets st account)))%nat) eqn:Hlisted;
    [|exact Hs].
  apply isEmpty_lengths in Hlisted. right.
  destruct Hs as [[Hnone Hpending] | (assets & first & Hsome & Hpending & _)].
  - exists (fetchAssets st account), account. cbn. now rewrite Hnone, Hpending.
  - exists (fetchAssets st account), first. cbn. now rewrite Hsome, Hpending.
Qed.

Lemma timeout_settled observer : settled observer -> settled (snd (timeout observer)).
Proof.
  intros [[Hnone Hpending] | (assets & first & Hsome & Hpending & _)]; unfold timeout.
  - rewrite Hpending. left. now split.
  - rewrite Hpending, Hsome. left. now split.
Qed.



Lemma run_calls events observer :
  settled observer ->
  Forall (fun call => isEmpty (snd call) = false) (fst (run events observer)) /\
  (length (fst (run events observer)) <= timersFired events)%nat /\
  (length (fst (run events observer)) <= length (pending observer) + storeChanges events)%nat.
Proof.
  revert observer. induction events as [|[st now|] events IH]; intros observer Hs.
  - cbn. repeat split; [constructor | lia..].
  - cbn [run timersFired storeChanges].
    pose proof (observe_settled st now observer Hs) as Hnext.
    destruct (IH _ Hnext) as (Hlisted & Htimers & Hchanges).
    repeat split; [exact Hlisted | exact Htimers|].
    assert (length (pending (observe st now observer)) <= S (length (pending observer)))%nat.
    { destruct Hnext as [[_ ->] | (? & ? & _ & -> & _)]; cbn; [lia|].
      destruct Hs as [[_ ->] | (? & ? & _ & -> & _)]; cbn; lia. }
    lia.
  - cbn [run timersFired storeChanges].
    pose proof (timeout_settled observer Hs) as Hnext.
    assert (Hcall : match fst (timeout observer) with
                    | Some call => isEmpty (snd call) = false /\
                                   length (pending observer) =
                                   S (length (pending (snd (timeout observer))))
                    | None => (length (pending (snd (timeout observer)))
                               <= length (pending observer))%nat
                    end).
    { unfold timeout.
      destruct Hs as [[Hnone Hp] | (assets & first & Hsome & Hp & Hlisted)];
        rewrite Hp; [cbn; rewrite Hp; cbn; lia|].
      rewrite Hsome. cbn. now split. }
    destruct (timeout observer) as [call next]. cbn [fst snd] in *.
    destruct (IH _ Hnext) as (Hlisted & Htimers & Hchanges).
    destruct (run events next) as [calls final]. cbn [fst] in *.
    destruct call as [call|]; cbn [length].
    + destruct Hcall as [Hcall Hlength].
      repeat split; [constructor; assumption | lia | lia].
    + repeat split; [assumption | lia | lia].
Qed.

(** X26: The handler is never called with an empty answer, at most once per timer
    that fires and at most once per change of the store. *)
Theorem observer_notifications events :
  let calls := fst (run events createObserver) in
  Forall (fun call => isEmpty (snd call) = false) calls /\
  (length calls <= timersFired events)%nat /\
  (length calls <= storeChanges events)%nat.
Proof.
  cbv zeta. assert (Hstart : settled createObserver) by (left; now split).
  destruct (run_calls events createObserver Hstart) as (Hlisted & Htimers & Hchanges).
  repeat split; assumption.
Qed.


End ObserverProperties.

(** Concrete runs. *)
Lemma fetchAssets_preferences_witness :
  ~ In Assets.dai
      (map Assets.nativeBalance
         (Assets.nativeCurrency (Assets.fetchAssets (Assets.sampleState Assets.alice) Assets.alice))) /\
  ~ In Assets.dai
      (map Assets.tokenBalance
         (Assets.erc20 (Assets.fetchAssets (Assets.sampleState Assets.alice) Assets.alice))).
Proof.
  apply (fetchAssets_preferences (Assets.sampleState Assets.alice) Assets.alice Assets.dai
           {| Assets.hidden := true |}).
  - right. left. reflexivity.
  - reflexivity.
  - reflexivity.
Defined.

Lemma loadAssets_freshness_witness :
  Assets.loadAssets (Assets.sampleState Assets.alice) 1200000 Assets.alice =
    Return (Assets.fetchAssets (Assets.sampleState Assets.alice) Assets.alice).
Proof.
  apply (loadAssets_freshness (Assets.sampleState Assets.alice) 1200000 Assets.alice).
  exists 1000000%Z. repeat split; [discriminate | cbn; lia].
Defined.

